(** * lib/logger.js: console and file logger

    A shallow embedding of [src/lib/logger.js] and the properties of its
    six logging functions, its file writer and its factory.

    The module is modelled in three layers:
    - [JsText]: the string built-ins the logger calls ([replace] with the
      regular expression of the time stamp, [trim], [split], [reverse],
      [join]) and [Date.prototype.toISOString];
    - [Logger]: the module itself, as a state-and-exception monad over the
      console, the file system and the queue of pending I/O callbacks;
    - [Sample]: one concrete runtime, on which the properties are run;
    - the properties, stated on those definitions.

    Domain of the model.  JavaScript values are [undefined], [null],
    booleans, numbers, strings, functions and objects.  Symbols, and
    objects whose conversion to text raises, are outside the model.  The
    logger is assumed to be loaded through [require] by a parent module,
    so that [module.parent.filename] is a string. *)

From Stdlib Require Import String Ascii List ZArith Lia Bool.
From stdpp Require Import gmap strings list pretty.
Import ListNotations.

Set Default Proof Using "Type".

(* ===================================================================== *)
(** ** String built-ins *)
(* ===================================================================== *)

Module JsText.

(** Code units are modelled as [ascii]; every string the logger builds
    for the time stamp is ASCII. *)

(** LineTerminator of ECMAScript, restricted to ASCII: LF and CR.  The
    regular expression atom [.] matches every character but these. *)
Definition is_line_terminator (c : ascii) : bool :=
  Ascii.eqb c "010" || Ascii.eqb c "013".

(** WhiteSpace and LineTerminator, restricted to ASCII: what [trim]
    strips. *)
Definition is_white_space (c : ascii) : bool :=
  Ascii.eqb c "009" || Ascii.eqb c "010" || Ascii.eqb c "011" ||
  Ascii.eqb c "012" || Ascii.eqb c "013" || Ascii.eqb c " ".

(** The alternatives [Z] and [T] of [/Z|T|\..+/gi]; the [i] flag makes
    them match in both cases. *)
Definition is_Z_or_T (c : ascii) : bool :=
  Ascii.eqb c "Z" || Ascii.eqb c "z" || Ascii.eqb c "T" || Ascii.eqb c "t".

(** [s.replace(/Z|T|\..+/gi, ' ')].

    The scan goes left to right.  [in_match] is true while the greedy
    [.+] of the third alternative is consuming characters: it runs up to
    the next line terminator (or the end of the string), and the whole
    match was already replaced by the single space emitted at its dot.
    A dot that is not followed by a character [.] can match is kept. *)
Fixpoint replace_Z_T_fraction (in_match : bool) (s : string) : string :=
  match s with
  | EmptyString => EmptyString
  | String c r =>
      if in_match then
        if is_line_terminator c
        then String c (replace_Z_T_fraction false r)
        else replace_Z_T_fraction true r
      else if is_Z_or_T c then String " " (replace_Z_T_fraction false r)
      else if Ascii.eqb c "." then
        match r with
        | EmptyString => String c EmptyString
        | String d _ =>
            if is_line_terminator d
            then String c (replace_Z_T_fraction false r)
            else String " " (replace_Z_T_fraction true r)
        end
      else String c (replace_Z_T_fraction false r)
  end.

(** [String.prototype.trim]. *)
Fixpoint trimStart (s : string) : string :=
  match s with
  | EmptyString => EmptyString
  | String c r => if is_white_space c then trimStart r else s
  end.

Fixpoint trimEnd (s : string) : string :=
  match s with
  | EmptyString => EmptyString
  | String c r =>
      match trimEnd r with
      | EmptyString => if is_white_space c then EmptyString else String c EmptyString
      | r' => String c r'
      end
  end.

Definition trim (s : string) : string := trimEnd (trimStart s).

(** [s.split(sep)] for a separator of one character. *)
Fixpoint split (sep : ascii) (s : string) : list string :=
  match s with
  | EmptyString => [EmptyString]
  | String c r =>
      if Ascii.eqb c sep then EmptyString :: split sep r
      else match split sep r with
           | h :: t => String c h :: t
           | [] => [String c EmptyString]
           end
  end.

(** [l.join(sep)] on a list of strings. *)
Fixpoint join (sep : string) (l : list string) : string :=
  match l with
  | [] => EmptyString
  | [x] => x
  | x :: r => x +:+ sep +:+ join sep r
  end.

(** [s.includes(t)]: [t] occurs in [s] as a substring. *)
Fixpoint prefix_of (t s : string) : bool :=
  match t, s with
  | EmptyString, _ => true
  | String a t', String b s' => Ascii.eqb a b && prefix_of t' s'
  | String _ _, EmptyString => false
  end.

Fixpoint includes (s t : string) : bool :=
  prefix_of t s ||
  match s with
  | EmptyString => false
  | String _ r => includes r t
  end.

Fixpoint ends_with (s t : string) : bool :=
  String.eqb s t ||
  match s with
  | EmptyString => false
  | String _ r => ends_with r t
  end.

(** *** Dates *)

(** A [Date], by its UTC fields. *)
Record Date := mkDate {
  year : Z;
  month : nat;          (* 1 .. 12 *)
  day : nat;            (* 1 .. 31 *)
  hours : nat;          (* 0 .. 23 *)
  minutes : nat;        (* 0 .. 59 *)
  seconds : nat;        (* 0 .. 59 *)
  milliseconds : nat    (* 0 .. 999 *)
}.

Definition digit (n : nat) : ascii := ascii_of_nat (48 + n mod 10).

(** [n] in decimal, on exactly [w] digits. *)
Fixpoint pad (w n : nat) : string :=
  match w with
  | O => EmptyString
  | S w' => pad w' (n / 10) +:+ String (digit n) EmptyString
  end.

(** Years 0 to 9999 print on four digits, the others as a sign and six
    digits (the expanded years of ECMAScript). *)
Definition year_string (y : Z) : string :=
  if (0 <=? y)%Z && (y <=? 9999)%Z then pad 4 (Z.to_nat y)
  else (if (y <? 0)%Z then "-" else "+") +:+ pad 6 (Z.to_nat (Z.abs y)).

Definition calendar_date (d : Date) : string :=
  year_string (year d) +:+ "-" +:+ pad 2 (month d) +:+ "-" +:+ pad 2 (day d).

Definition time_of_day (d : Date) : string :=
  pad 2 (hours d) +:+ ":" +:+ pad 2 (minutes d) +:+ ":" +:+ pad 2 (seconds d).

(** [Date.prototype.toISOString]: [YYYY-MM-DDTHH:MM:SS.mmmZ]. *)
Definition toISOString (d : Date) : string :=
  calendar_date d +:+ "T" +:+ time_of_day d +:+ "." +:+
  pad 3 (milliseconds d) +:+ "Z".

(** The time stamp of [write]:
    [date.toISOString().replace(/Z|T|\..+/gi, ' ').trim().split(' ').reverse().join(' ')]. *)
Definition dateString (d : Date) : string :=
  join " " (rev (split " " (trim (replace_Z_T_fraction false (toISOString d))))).

(** The time stamp as the specification words it: [DD MM YYYY HH:MM:SS]. *)
Definition spec_dateString (d : Date) : string :=
  pad 2 (day d) +:+ " " +:+ pad 2 (month d) +:+ " " +:+
  year_string (year d) +:+ " " +:+ time_of_day d.

(** Characters the time-stamp pipeline leaves alone: no alternative of
    the regular expression starts at them and [trim] and [split] do not
    cut at them. *)
Definition plain (c : ascii) : bool :=
  negb (is_Z_or_T c) && negb (Ascii.eqb c ".") && negb (is_white_space c).

Fixpoint plain_string (s : string) : Prop :=
  match s with
  | EmptyString => True
  | String c r => plain c = true /\ plain_string r
  end.

End JsText.

(* ===================================================================== *)
(** ** The logger module *)
(* ===================================================================== *)

Module Logger.
Import JsText.

Definition CRLF : string := String "013" (String "010" EmptyString).

(** What a call does when it ends: it returns, or it throws. *)
Inductive exception :=
| TypeError (what : string)       (* raised by the runtime *)
| FsError (code : string).        (* raised by a synchronous fs call *)

Inductive completion (A : Type) :=
| Returned (a : A)
| Threw (e : exception).
Arguments Returned {A} a.
Arguments Threw {A} e.

(** *** chalk *)

(** A chalk style is the chain of style names applied so far:
    [chalk.cyan.bold.inverse] is [["cyan"; "bold"; "inverse"]]. *)
Definition chalk_style := list string.

(** The style names chalk defines as properties: the modifiers, colours
    and background colours of ansi-styles.  Any other property of
    [chalk] read as a style is [undefined]; there is no [orange]. *)
Definition chalk_style_names : list string :=
  [ "reset"; "bold"; "dim"; "italic"; "underline"; "inverse"; "hidden";
    "strikethrough"; "visible";
    "black"; "red"; "green"; "yellow"; "blue"; "magenta"; "cyan"; "white";
    "gray"; "grey"; "blackBright"; "redBright"; "greenBright"; "yellowBright";
    "blueBright"; "magentaBright"; "cyanBright"; "whiteBright";
    "bgBlack"; "bgRed"; "bgGreen"; "bgYellow"; "bgBlue"; "bgMagenta";
    "bgCyan"; "bgWhite"; "bgBlackBright"; "bgRedBright"; "bgGreenBright";
    "bgYellowBright"; "bgBlueBright"; "bgMagentaBright"; "bgCyanBright";
    "bgWhiteBright" ]%string.

(** [chalk[name]]; [None] is [undefined]. *)
Definition chalk (name : string) : option chalk_style :=
  if existsb (String.eqb name) chalk_style_names then Some [name] else None.

Definition bold (s : chalk_style) : chalk_style := s ++ ["bold"%string].
Definition inverse (s : chalk_style) : chalk_style := s ++ ["inverse"%string].

(** *** The file system *)

Record filesystem := mkFs {
  dirs : gset string;                  (* directories that exist *)
  files : gmap string string;          (* content of each file, by path *)
  fault : string -> option string      (* paths on which operations fail,
                                          and the error code they fail with *)
}.

(** The I/O requests [write] leaves to the event loop, each with what its
    callback goes on to do. *)
Inductive task :=
| Mkdirp (dir : string) (file data : string)   (* fs.mkdirp(dir, cb): cb appends data to file *)
| AppendFile (file data : string).             (* fs.appendFile(file, data, cb) *)

(** *** Values *)

(** Numbers (IEEE doubles) and heap objects stay abstract. *)
Inductive value (number heap_object : Type) :=
| VUndefined
| VNull
| VBoolean (b : bool)
| VNumber (n : number)
| VString (s : string)
| VFunction (f : heap_object)
| VObject (o : heap_object).
Arguments VUndefined {number heap_object}.
Arguments VNull {number heap_object}.
Arguments VBoolean {number heap_object} b.
Arguments VNumber {number heap_object} n.
Arguments VString {number heap_object} s.
Arguments VFunction {number heap_object} f.
Arguments VObject {number heap_object} o.

(** The options [parseLogEntry] passes to [util.inspect]. *)
Record inspect_options := mkInspectOptions {
  colors : bool;
  depth : option nat;        (* [None] is [depth: null], unlimited *)
  showProxy : bool;
  showHidden : bool
}.

(** Library functions of the runtime, taken as they are. *)
Class Runtime (number heap_object : Type) := mkRuntime {
  number_to_string : number -> string;        (* ToString on a number *)
  number_is_truthy : number -> bool;          (* false on 0 and NaN *)
  object_to_string : heap_object -> string;   (* ToString on an object or function *)
  get_property : heap_object -> string -> value number heap_object;
  util_inspect : value number heap_object -> inspect_options -> string;
  util_format_s : value number heap_object -> string;
                                              (* what [%s] prints for a value that is not a string *)
  ansi : chalk_style -> value number heap_object -> string;
                                              (* a chalk style applied to an argument *)
  toUpper : string -> string;                 (* _.toUpper *)
  path_basename : string -> string;
  path_dirname : string -> string;
  path_join : string -> string -> string
}.

(** What the module reads from its surroundings when it is loaded. *)
Record environment (number heap_object : Type) := mkEnv {
  parent_filename : string;                  (* module.parent.filename *)
  isDebug : bool;                            (* truthiness of the export of lib/is-debug *)
  process_type : value number heap_object;   (* process.type *)
  appName : string;                          (* packageJson.name *)
  appLogDirectory : string                   (* (new Appdirectory(appName)).userLogs() *)
}.
Arguments mkEnv {number heap_object}.
Arguments parent_filename {number heap_object}.
Arguments isDebug {number heap_object}.
Arguments process_type {number heap_object}.
Arguments appName {number heap_object}.
Arguments appLogDirectory {number heap_object}.

Record state (number heap_object : Type) := mkState {
  writeToFile : value number heap_object;     (* the module-level variable *)
  now : Date;                                 (* the instant [new Date()] reads *)
  stdout : list (list (value number heap_object));
                                              (* calls of console.log, oldest first *)
  stderr : list (string * string * string);   (* calls of console.error(tag, operation, err) *)
  fs : filesystem;
  pending : list task                         (* requests handed to the event loop *)
}.
Arguments mkState {number heap_object}.
Arguments writeToFile {number heap_object}.
Arguments now {number heap_object}.
Arguments stdout {number heap_object}.
Arguments stderr {number heap_object}.
Arguments fs {number heap_object}.
Arguments pending {number heap_object}.

(** Calls run in a state-and-exception monad; the state survives a throw. *)
Definition M (number heap_object : Type) (A : Type) : Type :=
  state number heap_object -> completion A * state number heap_object.

Section Logger_body.

Context {number heap_object : Type} `{rt : Runtime number heap_object}.

#[local] Abbreviation value := (value number heap_object).
#[local] Abbreviation state := (state number heap_object).
#[local] Abbreviation M := (M number heap_object).

Definition ret {A} (a : A) : M A := fun st => (Returned a, st).
Definition throw {A} (e : exception) : M A := fun st => (Threw e, st).
Definition bind {A B} (m : M A) (k : A -> M B) : M B :=
  fun st => match m st with
            | (Returned a, st') => k a st'
            | (Threw e, st') => (Threw e, st')
            end.
Definition gets {A} (f : state -> A) : M A := fun st => (Returned (f st), st).
Definition modify (f : state -> state) : M unit := fun st => (Returned tt, f st).

(** The monad through stdpp's interface: [x ← m; k] and [m;; k]. *)
#[local] Instance M_ret : MRet M := @ret.
#[local] Instance M_bind : MBind M := fun A B k m => bind m k.

Definition typeof (v : value) : string :=
  match v with
  | VUndefined => "undefined"
  | VNull => "object"
  | VBoolean _ => "boolean"
  | VNumber _ => "number"
  | VString _ => "string"
  | VFunction _ => "function"
  | VObject _ => "object"
  end.

Definition is_null (v : value) : bool :=
  match v with VNull => true | _ => false end.

(** ToBoolean. *)
Definition truthy (v : value) : bool :=
  match v with
  | VUndefined | VNull => false
  | VBoolean b => b
  | VNumber n => number_is_truthy n
  | VString s => negb (String.eqb s "")
  | VFunction _ | VObject _ => true
  end.

(** ToString. *)
Definition ToString (v : value) : string :=
  match v with
  | VUndefined => "undefined"
  | VNull => "null"
  | VBoolean true => "true"
  | VBoolean false => "false"
  | VNumber n => number_to_string n
  | VString s => s
  | VFunction f | VObject f => object_to_string f
  end.

(** [v[name]] on a value that is not [undefined] or [null]: primitives
    have no own properties. *)
Definition property (v : value) (name : string) : value :=
  match v with
  | VFunction o | VObject o => get_property o name
  | _ => VUndefined
  end.

(** [v === 'text']. *)
Definition strict_equals_string (v : value) (text : string) : bool :=
  match v with VString s => String.eqb s text | _ => false end.

(** [Array.prototype.join]: [undefined] and [null] give the empty
    string, every other element its ToString. *)
Definition join_text (v : value) : string :=
  match v with
  | VUndefined | VNull => EmptyString
  | _ => ToString v
  end.

Definition array_join (sep : string) (l : list value) : string :=
  join sep (map join_text l).

(** The [%s] directive of [util.format]. *)
Definition percent_s (v : value) : string :=
  match v with
  | VString s => s
  | _ => util_format_s v
  end.

(** [util.format] on a format string whose directives are [%s] and [%%],
    the only ones the logger uses.  A directive without an argument is
    left as it is; arguments without a directive are appended. *)
Fixpoint util_format (fmt : string) (args : list value) : string :=
  match fmt with
  | EmptyString => String.concat "" (map (fun a => " " +:+ percent_s a) args)
  | String c r =>
      match r with
      | String d r' =>
          if Ascii.eqb c "%" && Ascii.eqb d "s" then
            match args with
            | a :: rest => percent_s a +:+ util_format r' rest
            | [] => String c (String d (util_format r' []))
            end
          else if Ascii.eqb c "%" && Ascii.eqb d "%" then
            String "%" (util_format r' args)
          else String c (util_format r args)
      | EmptyString => String c (util_format r args)
      end
  end.

Variable env : environment number heap_object.

(** *** Module-level constants *)

Definition appLogFile : string :=
  path_join (appLogDirectory env) (appName env +:+ ".log").

Definition styleDefault := chalk "cyan".
Definition styleError := chalk "red".
Definition styleDebug := chalk "yellow".
Definition styleInfo := chalk "green".
Definition styleWarn := chalk "orange".

(** *** Effects *)

(** [console.log(...args)]. *)
Definition console_log (args : list value) : M unit :=
  modify (fun st => mkState (writeToFile st) (now st) (stdout st ++ [args])
                            (stderr st) (fs st) (pending st)).

(** [console.error(tag, operation, err)]. *)
Definition console_error (tag operation err : string) : M unit :=
  modify (fun st => mkState (writeToFile st) (now st) (stdout st)
                            (stderr st ++ [(tag, operation, err)]) (fs st) (pending st)).

Definition enqueue (t : task) : M unit :=
  modify (fun st => mkState (writeToFile st) (now st) (stdout st)
                            (stderr st) (fs st) (pending st ++ [t])).

Definition set_fs (f : filesystem) : M unit :=
  modify (fun st => mkState (writeToFile st) (now st) (stdout st)
                            (stderr st) f (pending st)).

Definition set_pending (q : list task) : M unit :=
  modify (fun st => mkState (writeToFile st) (now st) (stdout st)
                            (stderr st) (fs st) q).

Definition set_writeToFile (v : value) : M unit :=
  modify (fun st => mkState v (now st) (stdout st)
                            (stderr st) (fs st) (pending st)).

(** Recursive directory creation: fails on a faulty path, otherwise the
    directory exists afterwards (and creating it again changes nothing). *)
Definition fs_mkdirp (dir : string) (f : filesystem) : string + filesystem :=
  match fault f dir with
  | Some code => inl code
  | None => inr (mkFs ({[dir]} ∪ dirs f) (files f) (fault f))
  end.

(** Append: fails on a faulty path and when the parent directory is
    missing; otherwise creates the file if needed and extends it. *)
Definition fs_appendFile (file data : string) (f : filesystem) : string + filesystem :=
  match fault f file with
  | Some code => inl code
  | None =>
      if decide (path_dirname file ∈ dirs f)
      then inr (mkFs (dirs f)
                     (<[file := default EmptyString (files f !! file) +:+ data]> (files f))
                     (fault f))
      else inl "ENOENT"%string
  end.

(** [fs.mkdirpSync(dir)]: the failure is thrown. *)
Definition mkdirpSync (dir : string) : M unit :=
  f ← gets fs;
  match fs_mkdirp dir f with
  | inl code => throw (FsError code)
  | inr f' => set_fs f'
  end.

(** *** write *)

(** [write(entry)]: nothing when [writeToFile] is falsy; otherwise the
    line is stamped and [fs.mkdirp] is requested, whose callback appends
    the line.  The call returns before any of the I/O happens. *)
Definition write (entry : string) : M unit :=
  flag ← gets writeToFile;
  if negb (truthy flag) then mret tt
  else
    date ← gets now;
    let dateString := dateString date in
    let logEntry := "[" +:+ dateString +:+ "] " +:+ entry in
    enqueue (Mkdirp (path_dirname appLogFile) appLogFile (logEntry +:+ CRLF)).

(** The callbacks of [write], run by the event loop when the I/O
    request [t] completes. *)
Definition run_task (t : task) : M unit :=
  f ← gets fs;
  match t with
  | Mkdirp dir file data =>
      match fs_mkdirp dir f with
      | inl err => console_error "log" "fs.mkdirp" err
      | inr f' => set_fs f';; enqueue (AppendFile file data)
      end
  | AppendFile file data =>
      match fs_appendFile file data f with
      | inl err => console_error "log" "fs.appendFile" err
      | inr f' => set_fs f'
      end
  end.

(** One turn of the event loop: the oldest pending request completes. *)
Definition event_loop_turn : M unit :=
  queue ← gets pending;
  match queue with
  | [] => mret tt
  | t :: rest => set_pending rest;; run_task t
  end.

Fixpoint event_loop (turns : nat) : M unit :=
  match turns with
  | O => mret tt
  | S n => event_loop_turn;; event_loop n
  end.

(** *** parseLogEntry *)

Record log_entry := mkEntry {
  prefix : string;
  label : value;
  message : string
}.

Definition inspect_everything : inspect_options :=
  mkInspectOptions false None true true.

(** The body of the [for ... in] loop, on one element. *)
Definition expand_object (m : value) : value :=
  if negb (is_null m) && String.eqb (typeof m) "object"
  then VString (CRLF +:+ util_inspect m inspect_everything)
  else m.

Definition parseLogEntry (messageList : list value) : log_entry :=
  let prefix := toUpper (path_basename (parent_filename env)) in
  (* messageList.shift() *)
  let label := match messageList with [] => VUndefined | l :: _ => l end in
  let messageList := tail messageList in
  let messageList := map expand_object messageList in
  let messageString := array_join " " messageList in
  mkEntry prefix label messageString.

(** *** The logging functions *)

(** Reading [.bold] on a style that is [undefined] throws. *)
Definition style_of (s : option chalk_style) : M chalk_style :=
  match s with
  | Some style => mret style
  | None => throw (TypeError "Cannot read property 'bold' of undefined")
  end.

(** [util.format('[%s] [%s] %s', style.bold.inverse(prefix), style.bold(label), style(message))]. *)
Definition styled (s : option chalk_style) (parameters : log_entry) : M string :=
  style ← style_of s;
  mret (util_format "[%s] [%s] %s"
          [ VString (ansi (inverse (bold style)) (VString (prefix parameters)));
            VString (ansi (bold style) (label parameters));
            VString (ansi style (VString (message parameters))) ]).

Definition printCliLogMessage (arguments : list value) : M unit :=
  if decide (length arguments = 0) then mret tt
  else
    let args := arguments in
    let style := styleDefault in
    let parameters := parseLogEntry args in
    line ← styled style parameters;
    console_log [VString line];;
    write (util_format "[%s] [%s] %s"
             [VString (prefix parameters); label parameters; VString (message parameters)]).

Definition printCliErrorMessage (arguments : list value) : M unit :=
  if decide (length arguments = 0) then mret tt
  else
    let args := arguments in
    let style := styleError in
    let parameters := parseLogEntry args in
    line ← styled style parameters;
    console_log [VString line];;
    write (util_format "[%s] [ERROR] [%s] %s"
             [VString (prefix parameters); label parameters; VString (message parameters)]).

Definition printDevtoolsMessage (arguments : list value) : M unit :=
  if decide (length arguments = 0) then mret tt
  else if negb (isDebug env) then mret tt
  else
    let args := arguments in
    let parameters := parseLogEntry args in
    console_log
      [ VString "%c%s%c %c%s%c %c%s";
        VString "background-color: rgba(74, 179, 103, 1.0); color: rgba(255, 255, 255, 1.0); padding: 0 2px; font-weight: bold";
        VString (prefix parameters);
        VString "";
        VString "background-color: rgba(74, 179, 103, 0.2); color: rgba(74, 179, 103, 1.0); padding: 0 2px";
        label parameters;
        VString "";
        VString "font-weight: bold";
        VString (message parameters) ];;
    write (util_format "[%s] [%s] %s"
             [VString (prefix parameters); label parameters; VString (message parameters)]).

Definition printCliDebugMessage (arguments : list value) : M unit :=
  if decide (length arguments = 0) then mret tt
  else if negb (isDebug env) then mret tt
  else if strict_equals_string (process_type env) "renderer"
  then printDevtoolsMessage arguments
  else
    let args := arguments in
    let style := styleDebug in
    let parameters := parseLogEntry args in
    line ← styled style parameters;
    console_log [VString line];;
    write (util_format "[DEBUG] [%s] [%s] %s"
             [VString (prefix parameters); label parameters; VString (message parameters)]).

Definition printCliInfoMessage (arguments : list value) : M unit :=
  if decide (length arguments = 0) then mret tt
  else
    let args := arguments in
    let style := styleInfo in
    let parameters := parseLogEntry args in
    line ← styled style parameters;
    console_log [VString line];;
    write (util_format "[DEBUG] [%s] [%s] %s"
             [VString (prefix parameters); label parameters; VString (message parameters)]).

Definition printCliWarnMessage (arguments : list value) : M unit :=
  if decide (length arguments = 0) then mret tt
  else
    let args := arguments in
    let style := styleWarn in
    let parameters := parseLogEntry args in
    line ← styled style parameters;
    console_log [VString line];;
    write (util_format "[DEBUG] [%s] [%s] %s"
             [VString (prefix parameters); label parameters; VString (message parameters)]).

(** *** The factory *)

(** The object the factory returns. *)
Record facade := mkFacade {
  log : list value -> M unit;
  error : list value -> M unit;
  debug : list value -> M unit;
  devtools : list value -> M unit;
  info : list value -> M unit;
  warn : list value -> M unit
}.

(** [module.exports = (options) => { ... }]. *)
Definition module_exports (options : value) : M facade :=
  (* options && options.writeToFile *)
  set_writeToFile (if truthy options then property options "writeToFile" else options);;
  flag ← gets writeToFile;
  (if truthy flag then mkdirpSync (appLogDirectory env) else mret tt);;
  mret (mkFacade printCliLogMessage printCliErrorMessage printCliDebugMessage
                 printDevtoolsMessage printCliInfoMessage printCliWarnMessage).

(** *** The six severities *)

Inductive severity := Log | Error | Debug | Devtools | Info | Warn.

Definition logging_function (s : severity) : list value -> M unit :=
  match s with
  | Log => printCliLogMessage
  | Error => printCliErrorMessage
  | Debug => printCliDebugMessage
  | Devtools => printDevtoolsMessage
  | Info => printCliInfoMessage
  | Warn => printCliWarnMessage
  end.

(** The same function, through the object the factory returned. *)
Definition facade_function (f : facade) (s : severity) : list value -> M unit :=
  match s with
  | Log => log f
  | Error => error f
  | Debug => debug f
  | Devtools => devtools f
  | Info => info f
  | Warn => warn f
  end.

End Logger_body.

Arguments log_entry : clear implicits.
Arguments facade : clear implicits.

End Logger.

(* ===================================================================== *)
(** ** Vocabulary of the properties *)
(* ===================================================================== *)

Module LoggerSpec.
Import JsText Logger.

Section Vocabulary.

Context {number heap_object : Type} `{rt : Runtime number heap_object}.
Variable env : environment number heap_object.

#[local] Abbreviation value := (Logger.value number heap_object).
#[local] Abbreviation state := (Logger.state number heap_object).

(** States after one more effect. *)
Definition add_stdout (args : list value) (st : state) : state :=
  mkState (writeToFile st) (now st) (stdout st ++ [args]) (stderr st) (fs st) (pending st).

Definition add_stderr (e : string * string * string) (st : state) : state :=
  mkState (writeToFile st) (now st) (stdout st) (stderr st ++ [e]) (fs st) (pending st).

Definition add_pending (t : task) (st : state) : state :=
  mkState (writeToFile st) (now st) (stdout st) (stderr st) (fs st) (pending st ++ [t]).

(** The request [write] issues for [entry] at the instant [d]. *)
Definition write_request (d : Date) (entry : string) : task :=
  Mkdirp (path_dirname (appLogFile env)) (appLogFile env)
         ("[" +:+ time_of_day d +:+ " " +:+ calendar_date d +:+ "] " +:+ entry +:+ CRLF).

(** What the three format strings of the file lines print. *)
Definition plain_body (p : log_entry number heap_object) : string :=
  "[" +:+ prefix p +:+ "] [" +:+ percent_s (label p) +:+ "] " +:+ message p.

Definition error_body (p : log_entry number heap_object) : string :=
  "[" +:+ prefix p +:+ "] [ERROR] [" +:+ percent_s (label p) +:+ "] " +:+ message p.

Definition debug_body (p : log_entry number heap_object) : string :=
  "[DEBUG] [" +:+ prefix p +:+ "] [" +:+ percent_s (label p) +:+ "] " +:+ message p.

(** The console line of the five terminal severities, in style [sty]. *)
Definition console_line (sty : chalk_style) (p : log_entry number heap_object) : string :=
  "[" +:+ ansi (inverse (bold sty)) (VString (prefix p)) +:+ "] [" +:+
  ansi (bold sty) (label p) +:+ "] " +:+ ansi sty (VString (message p)).

(** The arguments [printDevtoolsMessage] hands to [console.log]. *)
Definition devtools_line (p : log_entry number heap_object) : list value :=
  [ VString "%c%s%c %c%s%c %c%s";
    VString "background-color: rgba(74, 179, 103, 1.0); color: rgba(255, 255, 255, 1.0); padding: 0 2px; font-weight: bold";
    VString (prefix p);
    VString "";
    VString "background-color: rgba(74, 179, 103, 0.2); color: rgba(74, 179, 103, 1.0); padding: 0 2px";
    label p;
    VString "";
    VString "font-weight: bold";
    VString (message p) ].

(** The file line as the specification words it:
    [[STAMP] [OPTIONAL-SEVERITY-TAG] [PREFIX] [LABEL] MESSAGE], with the
    tag [[ERROR]] for [error], [[DEBUG]] for [debug], [info] and [warn],
    and none for [log]. *)
Definition spec_severity_tag (s : severity) : string :=
  match s with
  | Error => "[ERROR] "
  | Debug | Info | Warn => "[DEBUG] "
  | Log | Devtools => EmptyString
  end.

Definition spec_file_line (s : severity) (stamp : string)
    (p : log_entry number heap_object) : string :=
  "[" +:+ stamp +:+ "] " +:+ spec_severity_tag s +:+
  "[" +:+ prefix p +:+ "] [" +:+ percent_s (label p) +:+ "] " +:+ message p.

(** The line of the log file each severity formats, before the time
    stamp.  [debug] inside a renderer goes through [devtools]. *)
Definition file_body (s : severity) (p : log_entry number heap_object) : string :=
  match s with
  | Log | Devtools => plain_body p
  | Error => error_body p
  | Debug =>
      if strict_equals_string (process_type env) "renderer"
      then plain_body p else debug_body p
  | Info | Warn => debug_body p
  end.

(** The same runtime with another rendering of chalk styles. *)
Definition with_ansi (paint : chalk_style -> value -> string) : Runtime number heap_object :=
  {| number_to_string := number_to_string;
     number_is_truthy := number_is_truthy;
     object_to_string := object_to_string;
     get_property := get_property;
     util_inspect := util_inspect;
     util_format_s := util_format_s;
     ansi := paint;
     toUpper := toUpper;
     path_basename := path_basename;
     path_dirname := path_dirname;
     path_join := path_join |}.

Definition with_fs (f : filesystem) (st : state) : state :=
  mkState (writeToFile st) (now st) (stdout st) (stderr st) f (pending st).

(** The three ways a logging call can go: it returns at one of its
    guards, it throws before any effect, or it prints [line] and hands
    [body] to [write]. *)
Inductive call_kind :=
| Quiet
| Throws (e : exception)
| Writes (line : list value) (body : string).

(** Which way a call goes, as a table by severity; it does not depend
    on the state. *)
Definition kind_of (s : severity) (args : list value) : call_kind :=
  match args with
  | [] => Quiet
  | _ :: _ =>
      let p := parseLogEntry env args in
      match s with
      | Log => Writes [VString (console_line ["cyan"%string] p)] (plain_body p)
      | Error => Writes [VString (console_line ["red"%string] p)] (error_body p)
      | Debug =>
          if isDebug env then
            if strict_equals_string (process_type env) "renderer"
            then Writes (devtools_line p) (plain_body p)
            else Writes [VString (console_line ["yellow"%string] p)] (debug_body p)
          else Quiet
      | Devtools =>
          if isDebug env then Writes (devtools_line p) (plain_body p) else Quiet
      | Info => Writes [VString (console_line ["green"%string] p)] (debug_body p)
      | Warn => Throws (TypeError "Cannot read property 'bold' of undefined")
      end
  end.

Definition run_kind (k : call_kind) (st : state) : completion unit * state :=
  match k with
  | Quiet => (Returned tt, st)
  | Throws e => (Threw e, st)
  | Writes line body => write env body (add_stdout line st)
  end.

(** A client that makes logging calls one after the other, going on
    after a call that throws. *)
Fixpoint call_sequence (calls : list (severity * list value)) (st : state) : state :=
  match calls with
  | [] => st
  | (s, args) :: rest => call_sequence rest (snd (logging_function env s args st))
  end.

(** The object the factory returns: the six functions of the module. *)
Definition the_facade : facade number heap_object :=
  mkFacade (printCliLogMessage env) (printCliErrorMessage env)
           (printCliDebugMessage env) (printDevtoolsMessage env)
           (printCliInfoMessage env) (printCliWarnMessage env).

(** The same module in a process of another type. *)
Definition in_process (process_type : value) : environment number heap_object :=
  mkEnv (parent_filename env) (isDebug env) process_type (appName env) (appLogDirectory env).

(** The text an argument after the label contributes to the message. *)
Definition message_text (v : value) : string :=
  match v with
  | VUndefined | VNull => EmptyString
  | VObject o => CRLF +:+ util_inspect (VObject o) (mkInspectOptions false None true true)
  | VBoolean _ | VNumber _ | VString _ | VFunction _ => ToString v
  end.

(** The same, as the specification words it: every value that is not a
    primitive is dumped. *)
Definition spec_message_text (v : value) : string :=
  match v with
  | VUndefined | VNull => EmptyString
  | VObject _ | VFunction _ =>
      CRLF +:+ util_inspect v (mkInspectOptions false None true true)
  | VBoolean _ | VNumber _ | VString _ => ToString v
  end.

End Vocabulary.

End LoggerSpec.

(* ===================================================================== *)
(** ** Vocabulary of the further properties *)
(* ===================================================================== *)

Module ExtraSpec.
Import JsText Logger LoggerSpec.

Section Vocabulary.

Context {number heap_object : Type} `{rt : Runtime number heap_object}.
Variable env : environment number heap_object.

#[local] Abbreviation value := (Logger.value number heap_object).
#[local] Abbreviation state := (Logger.state number heap_object).

(** The same state with another value of [writeToFile]. *)
Definition with_flag (v : value) (st : state) : state :=
  mkState v (now st) (stdout st) (stderr st) (fs st) (pending st).

(** [options && options.writeToFile]. *)
Definition requested_flag (options : value) : value :=
  if truthy options then property options "writeToFile" else options.

(** The same instant at another millisecond. *)
Definition at_millisecond (d : Date) (ms : nat) : Date :=
  mkDate (year d) (month d) (day d) (hours d) (minutes d) (seconds d) ms.





End Vocabulary.

End ExtraSpec.

(* ===================================================================== *)
(** ** A concrete runtime *)
(* ===================================================================== *)

(** Numbers are integers, objects are flat records of boolean
    properties, paths are POSIX paths and chalk emits ANSI escape
    sequences.  The properties below hold for every runtime; this one
    serves to run the logger on concrete calls. *)
Module Sample.
Import JsText Logger.

Definition number : Type := Z.

(** An object is a list of properties, and a function has a source
    text besides. *)
Record heap_object : Type := mkObject {
  source : option string;
  properties : list (string * bool)
}.

#[local] Abbreviation value := (Logger.value number heap_object).
#[local] Abbreviation state := (Logger.state number heap_object).

Definition show_bool (b : bool) : string := if b then "true" else "false".

Fixpoint lookup (l : list (string * bool)) (name : string) : value :=
  match l with
  | [] => VUndefined
  | (k, b) :: r => if String.eqb k name then VBoolean b else lookup r name
  end.

Definition lookup_property (o : heap_object) (name : string) : value :=
  lookup (properties o) name.

Definition show_object (o : heap_object) : string :=
  "{ " +:+ join ", " (map (fun kb => fst kb +:+ ": " +:+ show_bool (snd kb)) (properties o))
       +:+ " }".

Definition object_text (o : heap_object) : string :=
  match source o with
  | Some text => text
  | None => "[object Object]"
  end.

Definition show_value (v : value) : string :=
  match v with
  | VUndefined => "undefined"
  | VNull => "null"
  | VBoolean b => show_bool b
  | VNumber n => pretty n
  | VString s => s
  | VFunction o | VObject o => object_text o
  end.

Definition inspect_value (v : value) (_ : inspect_options) : string :=
  match v with
  | VObject o => show_object o
  | VFunction _ => "[Function]"
  | VString s => "'" +:+ s +:+ "'"
  | _ => show_value v
  end.

Definition escape (code : string) : string := String "027" ("[" +:+ code +:+ "m").

Definition sgr (name : string) : string * string :=
  if String.eqb name "bold" then ("1", "22")
  else if String.eqb name "inverse" then ("7", "27")
  else if String.eqb name "red" then ("31", "39")
  else if String.eqb name "green" then ("32", "39")
  else if String.eqb name "yellow" then ("33", "39")
  else if String.eqb name "cyan" then ("36", "39")
  else ("0", "0").

Definition paint (style : chalk_style) (v : value) : string :=
  fold_right (fun name text => escape (fst (sgr name)) +:+ text +:+ escape (snd (sgr name)))
             (show_value v) (rev style).

Definition upper_char (c : ascii) : ascii :=
  let n := nat_of_ascii c in
  if (97 <=? n)%nat && (n <=? 122)%nat then ascii_of_nat (n - 32) else c.

Fixpoint upper (s : string) : string :=
  match s with
  | EmptyString => EmptyString
  | String c r => String (upper_char c) (upper r)
  end.

Definition posix_basename (p : string) : string := List.last (split "/" p) EmptyString.
Definition posix_dirname (p : string) : string := join "/" (List.removelast (split "/" p)).
Definition posix_join (a b : string) : string := a +:+ "/" +:+ b.

#[export] Instance runtime : Runtime number heap_object := {|
  number_to_string := pretty;
  number_is_truthy := fun n => negb (n =? 0)%Z;
  object_to_string := object_text;
  get_property := lookup_property;
  util_inspect := inspect_value;
  util_format_s := show_value;
  ansi := paint;
  toUpper := upper;
  path_basename := posix_basename;
  path_dirname := posix_dirname;
  path_join := posix_join
|}.

(** The module as [/app/main.js] loads it. *)
Definition env (debug_mode : bool) (process_type : value) : environment number heap_object :=
  mkEnv "/app/main.js" debug_mode process_type "player" "/var/log/player".

Definition healthy_fs : filesystem := mkFs ∅ ∅ (fun _ => None).

(** A file system on which nothing under the log directory can be
    created. *)
Definition readonly_fs : filesystem :=
  mkFs ∅ ∅ (fun p => if prefix_of "/var/log" p then Some "EACCES"%string else None).

(** A file system on which the log directory can be created and the log
    file cannot be written. *)
Definition full_fs : filesystem :=
  mkFs ∅ ∅ (fun p => if String.eqb p "/var/log/player/player.log" then Some "ENOSPC"%string else None).

Definition noon : Date := mkDate 2024 3 5 14 7 9 123.

(** The state right after the module is loaded, before the factory
    runs, and the state a factory call with [flag] leaves. *)
Definition loaded (f : filesystem) : state :=
  mkState (VBoolean false) noon [] [] f [].

Definition configured (flag : value) (f : filesystem) : state :=
  mkState flag noon [] [] f [].

Definition terminal := env false VUndefined.
Definition terminal_debug := env true VUndefined.
Definition renderer_debug := env true (VString "renderer").

Definition file_on := configured (VBoolean true) healthy_fs.
Definition file_off := configured (VBoolean false) healthy_fs.

Definition X : value := VString "X".
Definition a : value := VString "a".
Definition b : value := VString "b".

Definition log_dir : string := "/var/log/player".
Definition log_file : string := "/var/log/player/player.log".

Definition f : heap_object := mkObject (Some "function f() {}"%string) [].
Definition options : heap_object := mkObject None [("writeToFile"%string, true)].

End Sample.

(* ===================================================================== *)
(** ** Properties of the string built-ins *)
(* ===================================================================== *)

Module JsTextFacts.
Import JsText.

Lemma app_cons c s t : String c s +:+ t = String c (s +:+ t).
Proof. reflexivity. Qed.

Lemma app_empty_l s : EmptyString +:+ s = s.
Proof. reflexivity. Qed.

Lemma app_empty_r s : s +:+ EmptyString = s.
Proof. induction s as [|c s IH]; [reflexivity|]. now rewrite app_cons, IH. Qed.

Lemma app_assoc_string s t u : (s +:+ t) +:+ u = s +:+ (t +:+ u).
Proof. induction s as [|c s IH]; [reflexivity|]. now rewrite !app_cons, IH. Qed.

Lemma app_not_empty_r s c t : s +:+ String c t <> EmptyString.
Proof. destruct s; discriminate. Qed.

Lemma plain_parts c :
  plain c = true ->
  is_Z_or_T c = false /\ Ascii.eqb c "." = false /\ is_white_space c = false.
Proof.
  unfold plain. intros H.
  apply andb_prop in H as [H Hw]. apply andb_prop in H as [Hz Hd].
  repeat split; now apply negb_true_iff.
Qed.

Lemma plain_not_space c : plain c = true -> Ascii.eqb c " " = false.
Proof.
  intros H. apply plain_parts in H as (_ & _ & H).
  unfold is_white_space in H. now repeat (apply orb_false_elim in H as [? H]).
Qed.

Lemma plain_not_line_terminator c : plain c = true -> is_line_terminator c = false.
Proof.
  intros H. apply plain_parts in H as (_ & _ & H).
  unfold is_white_space in H. unfold is_line_terminator.
  apply orb_false_elim in H as [H _].
  repeat (apply orb_false_elim in H as [H ?]).
  apply orb_false_intro; assumption.
Qed.

Lemma plain_string_app s t : plain_string s -> plain_string t -> plain_string (s +:+ t).
Proof.
  induction s as [|c s IH]; [trivial|].
  intros [Hc Hs] Ht. rewrite app_cons. split; auto.
Qed.

Lemma plain_digit n : plain (digit n) = true.
Proof.
  unfold digit.
  assert (Hlt : (n mod 10 < 10)%nat) by (apply Nat.mod_upper_bound; discriminate).
  remember (n mod 10)%nat as k eqn:Hk. clear Hk.
  do 10 (destruct k as [|k]; [reflexivity|]). lia.
Qed.

Lemma plain_pad w : forall n, plain_string (pad w n).
Proof.
  induction w as [|w IH]; intros n; [exact I|].
  cbn [pad]. apply plain_string_app; [apply IH|].
  split; [apply plain_digit | exact I].
Qed.

Lemma pad_not_empty w n : pad (S w) n <> EmptyString.
Proof. cbn [pad]. apply app_not_empty_r. Qed.

Lemma plain_year_string y : plain_string (year_string y).
Proof.
  unfold year_string.
  destruct (_ && _); [apply plain_pad|].
  destruct (y <? 0)%Z; (split; [reflexivity | apply plain_pad]).
Qed.

Lemma year_string_not_empty y : year_string y <> EmptyString.
Proof.
  unfold year_string.
  destruct (_ && _); [apply pad_not_empty|].
  destruct (y <? 0)%Z; discriminate.
Qed.

Ltac plain_fields :=
  repeat first
    [ apply plain_pad
    | apply plain_year_string
    | rewrite app_cons, app_empty_l; split; [reflexivity|]
    | apply plain_string_app; [first [apply plain_pad | apply plain_year_string]|] ].

Lemma plain_calendar_date d : plain_string (calendar_date d).
Proof. unfold calendar_date. plain_fields. Qed.

Lemma plain_time_of_day d : plain_string (time_of_day d).
Proof. unfold time_of_day. plain_fields. Qed.

Lemma app_not_empty_l s t : s <> EmptyString -> s +:+ t <> EmptyString.
Proof. destruct s; [congruence | discriminate]. Qed.

Lemma calendar_date_not_empty d : calendar_date d <> EmptyString.
Proof. apply app_not_empty_l, year_string_not_empty. Qed.

Lemma time_of_day_not_empty d : time_of_day d <> EmptyString.
Proof. apply app_not_empty_l, pad_not_empty. Qed.

(** The scan copies plain characters. *)
Lemma replace_plain p s :
  plain_string p ->
  replace_Z_T_fraction false (p +:+ s) = p +:+ replace_Z_T_fraction false s.
Proof.
  induction p as [|c p IH]; [reflexivity|].
  intros [Hc Hp]. rewrite !app_cons. cbn [replace_Z_T_fraction].
  apply plain_parts in Hc as (-> & -> & _). now rewrite IH.
Qed.

(** Inside the match of [\..+], everything up to the end of the line is
    swallowed. *)
Lemma replace_in_match p :
  plain_string p -> replace_Z_T_fraction true (p +:+ "Z") = EmptyString.
Proof.
  induction p as [|c p IH]; [reflexivity|].
  intros [Hc Hp]. rewrite app_cons. cbn [replace_Z_T_fraction].
  now rewrite (plain_not_line_terminator _ Hc), IH.
Qed.

Lemma replace_fraction p :
  plain_string p ->
  replace_Z_T_fraction false ("." +:+ p +:+ "Z") = " "%string.
Proof.
  intros Hp. destruct p as [|c p]; [reflexivity|].
  change ("." +:+ String c p +:+ "Z") with (String "." (String c (p +:+ "Z"))).
  cbn [replace_Z_T_fraction is_Z_or_T Ascii.eqb Bool.eqb orb].
  destruct Hp as [Hc Hp].
  rewrite (plain_not_line_terminator _ Hc).
  now rewrite replace_in_match.
Qed.

Lemma trimStart_plain p s :
  plain_string p -> p <> EmptyString -> trimStart (p +:+ s) = p +:+ s.
Proof.
  destruct p as [|c p]; [congruence|].
  intros [Hc _] _. rewrite app_cons. cbn [trimStart].
  now apply plain_parts in Hc as (_ & _ & ->).
Qed.

Lemma trimEnd_plain q :
  plain_string q -> trimEnd q = q.
Proof.
  induction q as [|c q IH]; [reflexivity|].
  intros [Hc Hq]. cbn [trimEnd]. rewrite (IH Hq).
  apply plain_parts in Hc as (_ & _ & ->). now destruct q.
Qed.

Lemma trimEnd_plain_tail s q :
  plain_string q -> q <> EmptyString -> trimEnd (s +:+ q) = s +:+ q.
Proof.
  intros Hq Hne. induction s as [|a s IH].
  - now apply trimEnd_plain.
  - rewrite app_cons. cbn [trimEnd]. rewrite IH.
    destruct (s +:+ q) eqn:E; [|reflexivity].
    destruct s; [now rewrite app_empty_l in E | discriminate].
Qed.

Lemma trimEnd_space s : trimEnd (s +:+ " ") = trimEnd s.
Proof.
  induction s as [|a s IH]; [reflexivity|].
  rewrite app_cons. cbn [trimEnd]. now rewrite IH.
Qed.

Lemma split_plain p : plain_string p -> split " " p = [p].
Proof.
  induction p as [|c p IH]; [reflexivity|].
  intros [Hc Hp]. cbn [split]. now rewrite (plain_not_space _ Hc), (IH Hp).
Qed.

Lemma split_plain_space p s :
  plain_string p -> split " " (p +:+ " " +:+ s) = p :: split " " s.
Proof.
  induction p as [|c p IH]; [reflexivity|].
  intros [Hc Hp]. rewrite app_cons. cbn [split].
  now rewrite (plain_not_space _ Hc), (IH Hp).
Qed.

(** The pipeline on any two plain fields joined by [T] and followed by a
    fraction: the fields come out swapped, and nothing else changes. *)
Lemma pipeline_swaps p q f :
  plain_string p -> p <> EmptyString ->
  plain_string q -> q <> EmptyString ->
  plain_string f ->
  join " " (rev (split " " (trim (replace_Z_T_fraction false
     (p +:+ "T" +:+ q +:+ "." +:+ f +:+ "Z")))))
  = q +:+ " " +:+ p.
Proof.
  intros Hp Hpe Hq Hqe Hf.
  rewrite (replace_plain p) by assumption.
  change ("T" +:+ q +:+ "." +:+ f +:+ "Z")
    with (String "T" (q +:+ "." +:+ f +:+ "Z")).
  cbn [replace_Z_T_fraction is_Z_or_T Ascii.eqb Bool.eqb orb].
  rewrite (replace_plain q) by assumption.
  rewrite replace_fraction by assumption.
  unfold trim. rewrite trimStart_plain by assumption.
  change (String " " (q +:+ " ")) with (" " +:+ q +:+ " ").
  rewrite <- !app_assoc_string, trimEnd_space.
  rewrite trimEnd_plain_tail, app_assoc_string by assumption.
  rewrite split_plain_space, split_plain by assumption.
  now rewrite !app_assoc_string.
Qed.

Lemma prefix_of_app t s : prefix_of t (t +:+ s) = true.
Proof.
  induction t as [|c t IH]; [reflexivity|].
  rewrite app_cons. cbn [prefix_of]. now rewrite Ascii.eqb_refl, IH.
Qed.

Lemma includes_here s t : prefix_of t s = true -> includes s t = true.
Proof. intros H. destruct s; cbn [includes]; now rewrite H. Qed.

Lemma includes_later c s t : includes s t = true -> includes (String c s) t = true.
Proof. intros H. cbn [includes]. rewrite H. apply orb_true_r. Qed.

Lemma includes_app a t b : includes (a +:+ t +:+ b) t = true.
Proof.
  induction a as [|c a IH].
  - rewrite app_empty_l. apply includes_here, prefix_of_app.
  - rewrite app_cons. now apply includes_later.
Qed.

Lemma ends_with_app s t : ends_with (s +:+ t) t = true.
Proof.
  induction s as [|c s IH].
  - rewrite app_empty_l. destruct t; cbn [ends_with]; now rewrite String.eqb_refl.
  - rewrite app_cons. cbn [ends_with]. rewrite IH. apply orb_true_r.
Qed.

End JsTextFacts.

(* ===================================================================== *)
(** ** Properties of the logger *)
(* ===================================================================== *)

Module LoggerFacts.
Import JsText JsTextFacts Logger LoggerSpec.

Section Facts.

Context {number heap_object : Type} `{rt : Runtime number heap_object}.
Variable env : environment number heap_object.

#[local] Abbreviation value := (Logger.value number heap_object).
#[local] Abbreviation state := (Logger.state number heap_object).

Ltac run := cbv [mbind mret M_bind M_ret bind ret gets modify throw
                 console_log console_error enqueue set_fs set_pending set_writeToFile].

Lemma dateString_swapped d :
  dateString d = time_of_day d +:+ " " +:+ calendar_date d.
Proof.
  unfold dateString, toISOString.
  apply pipeline_swaps;
    auto using plain_calendar_date, calendar_date_not_empty,
               plain_time_of_day, time_of_day_not_empty, plain_pad.
Qed.

Lemma write_off entry st :
  truthy (writeToFile st) = false -> write env entry st = (Returned tt, st).
Proof. intros H. unfold write. run. now rewrite H. Qed.

Lemma write_on entry st :
  truthy (writeToFile st) = true ->
  write env entry st = (Returned tt, add_pending (write_request env (now st) entry) st).
Proof.
  intros H. unfold write. run. rewrite H. cbn [negb].
  unfold add_pending, write_request.
  now rewrite dateString_swapped, !app_assoc_string.
Qed.

Lemma format_plain a l m :
  util_format "[%s] [%s] %s" [VString a; l; VString m]
  = "[" +:+ a +:+ "] [" +:+ percent_s l +:+ "] " +:+ m.
Proof. cbn. now rewrite app_empty_r. Qed.

Lemma format_error a l m :
  util_format "[%s] [ERROR] [%s] %s" [VString a; l; VString m]
  = "[" +:+ a +:+ "] [ERROR] [" +:+ percent_s l +:+ "] " +:+ m.
Proof. cbn. now rewrite app_empty_r. Qed.

Lemma format_debug a l m :
  util_format "[DEBUG] [%s] [%s] %s" [VString a; l; VString m]
  = "[DEBUG] [" +:+ a +:+ "] [" +:+ percent_s l +:+ "] " +:+ m.
Proof. cbn. now rewrite app_empty_r. Qed.

Lemma styled_some sty p st :
  styled (Some sty) p st = (Returned (console_line sty p), st).
Proof. unfold styled, style_of. run. now rewrite format_plain. Qed.

Lemma styled_none p st :
  styled None p st
  = (Threw (TypeError "Cannot read property 'bold' of undefined"), st).
Proof. reflexivity. Qed.

Ltac enter_call :=
  match goal with
  | |- context [decide (length (?l :: ?rest) = 0)] =>
      destruct (decide (length (l :: rest) = 0)) as [E|_]; [discriminate E|]
  end.

Lemma log_call l rest st :
  printCliLogMessage env (l :: rest) st
  = let p := parseLogEntry env (l :: rest) in
    write env (plain_body p) (add_stdout [VString (console_line ["cyan"%string] p)] st).
Proof.
  unfold printCliLogMessage. enter_call.
  change styleDefault with (Some ["cyan"%string]).
  cbv [mbind M_bind bind]. rewrite styled_some. run.
  now rewrite format_plain.
Qed.

Lemma error_call l rest st :
  printCliErrorMessage env (l :: rest) st
  = let p := parseLogEntry env (l :: rest) in
    write env (error_body p) (add_stdout [VString (console_line ["red"%string] p)] st).
Proof.
  unfold printCliErrorMessage. enter_call.
  change styleError with (Some ["red"%string]).
  cbv [mbind M_bind bind]. rewrite styled_some. run.
  now rewrite format_error.
Qed.

Lemma info_call l rest st :
  printCliInfoMessage env (l :: rest) st
  = let p := parseLogEntry env (l :: rest) in
    write env (debug_body p) (add_stdout [VString (console_line ["green"%string] p)] st).
Proof.
  unfold printCliInfoMessage. enter_call.
  change styleInfo with (Some ["green"%string]).
  cbv [mbind M_bind bind]. rewrite styled_some. run.
  now rewrite format_debug.
Qed.

(** [chalk['orange']] is [undefined]: [warn] throws before it prints. *)
Lemma warn_call l rest st :
  printCliWarnMessage env (l :: rest) st
  = (Threw (TypeError "Cannot read property 'bold' of undefined"), st).
Proof.
  unfold printCliWarnMessage. enter_call.
  change styleWarn with (@None chalk_style).
  cbv [mbind M_bind bind]. now rewrite styled_none.
Qed.

Lemma devtools_call l rest st :
  isDebug env = true ->
  printDevtoolsMessage env (l :: rest) st
  = let p := parseLogEntry env (l :: rest) in
    write env (plain_body p) (add_stdout (devtools_line p) st).
Proof.
  intros Hd. unfold printDevtoolsMessage. enter_call. rewrite Hd. cbn [negb].
  run. now rewrite format_plain.
Qed.

Lemma devtools_quiet args st :
  isDebug env = false -> printDevtoolsMessage env args st = (Returned tt, st).
Proof.
  intros Hd. unfold printDevtoolsMessage. rewrite Hd.
  now destruct (decide _).
Qed.

Lemma debug_quiet args st :
  isDebug env = false -> printCliDebugMessage env args st = (Returned tt, st).
Proof.
  intros Hd. unfold printCliDebugMessage. rewrite Hd.
  now destruct (decide _).
Qed.

Lemma debug_call_renderer l rest st :
  isDebug env = true ->
  strict_equals_string (process_type env) "renderer" = true ->
  printCliDebugMessage env (l :: rest) st = printDevtoolsMessage env (l :: rest) st.
Proof.
  intros Hd Hr. unfold printCliDebugMessage. enter_call.
  now rewrite Hd, Hr.
Qed.

Lemma debug_call_terminal l rest st :
  isDebug env = true ->
  strict_equals_string (process_type env) "renderer" = false ->
  printCliDebugMessage env (l :: rest) st
  = let p := parseLogEntry env (l :: rest) in
    write env (debug_body p) (add_stdout [VString (console_line ["yellow"%string] p)] st).
Proof.
  intros Hd Hr. unfold printCliDebugMessage. enter_call.
  rewrite Hd, Hr. cbn [negb].
  change styleDebug with (Some ["yellow"%string]).
  cbv [mbind M_bind bind]. rewrite styled_some. run.
  now rewrite format_debug.
Qed.

Lemma call_empty s st : logging_function env s [] st = (Returned tt, st).
Proof. now destruct s. Qed.

(** The six functions follow the table. *)
Lemma call_summary s args st :
  logging_function env s args st = run_kind env (kind_of env s args) st.
Proof.
  destruct args as [|l rest]; [apply call_empty|].
  destruct s; cbn [logging_function kind_of run_kind].
  - apply log_call.
  - apply error_call.
  - destruct (isDebug env) eqn:Hd; [|now apply debug_quiet].
    destruct (strict_equals_string (process_type env) "renderer") eqn:Hr.
    + rewrite debug_call_renderer by assumption. now apply devtools_call.
    + now apply debug_call_terminal.
  - destruct (isDebug env) eqn:Hd; [now apply devtools_call | now apply devtools_quiet].
  - apply info_call.
  - apply warn_call.
Qed.

(** The line a call hands to [write] is the one of its severity. *)
Lemma kind_of_body s args line body :
  kind_of env s args = Writes line body ->
  body = file_body env s (parseLogEntry env args).
Proof.
  destruct args as [|l rest]; [discriminate|].
  destruct s; cbn [kind_of file_body];
    try destruct (isDebug env);
    try destruct (strict_equals_string (process_type env) "renderer");
    intros Hk; inversion Hk; reflexivity.
Qed.

Lemma kind_of_args s args line body :
  kind_of env s args = Writes line body -> args <> [].
Proof. now destruct args. Qed.

Lemma write_returns entry st : fst (write env entry st) = Returned tt.
Proof.
  destruct (truthy (writeToFile st)) eqn:Hw;
    [now rewrite write_on | now rewrite write_off].
Qed.

Lemma pending_after_print entry line (st : state) :
  pending (snd (write env entry (add_stdout line st))) = pending (snd (write env entry st)).
Proof.
  destruct (truthy (writeToFile st)) eqn:Hw.
  - now rewrite !write_on.
  - now rewrite !write_off.
Qed.

(** What a call returns does not depend on the file system. *)
Lemma call_result_frame s args st f :
  fst (logging_function env s args (with_fs f st)) = fst (logging_function env s args st).
Proof.
  rewrite !call_summary.
  destruct (kind_of env s args); cbn [run_kind fst]; trivial.
  now rewrite !write_returns.
Qed.

(** What a call leaves pending: nothing new, or the one request of its
    line. *)
Lemma call_pending s args st :
  let st' := snd (logging_function env s args st) in
  writeToFile st' = writeToFile st /\ now st' = now st /\ fs st' = fs st /\
  stderr st' = stderr st /\
  (pending st' = pending st \/
   (args <> [] /\ truthy (writeToFile st) = true /\
    fst (logging_function env s args st) = Returned tt /\
    pending st' = pending st ++
      [write_request env (now st) (file_body env s (parseLogEntry env args))])).
Proof.
  rewrite call_summary.
  destruct (kind_of env s args) as [|e|line body] eqn:Hk; cbn [run_kind].
  - cbn. tauto.
  - cbn. tauto.
  - destruct (truthy (writeToFile st)) eqn:Hw.
    + rewrite write_on by exact Hw. cbn.
      repeat split; trivial. right.
      rewrite (kind_of_body _ _ _ _ Hk). repeat split; trivial.
      now apply kind_of_args in Hk.
    + rewrite write_off by exact Hw. cbn. tauto.
Qed.

(** C6.  Each of the six logging functions, called with no argument,
    returns at once under every configuration (whatever [writeToFile],
    debug mode and the process type are): it prints nothing, requests no
    write, reports no error and does not throw. *)
Theorem zero_arguments_is_no_op (s : severity) (st : state) :
  logging_function env s [] st = (Returned tt, st).
Proof.
  destruct s; cbn [logging_function];
    [ unfold printCliLogMessage | unfold printCliErrorMessage
    | unfold printCliDebugMessage | unfold printDevtoolsMessage
    | unfold printCliInfoMessage | unfold printCliWarnMessage ];
    destruct (decide (length (@nil value) = 0)) as [_|Hne];
    solve [reflexivity | now contradiction Hne].
Qed.

(** C7.  When [writeToFile] is false (more generally falsy), [write] is
    a complete no-op: it returns leaving the state as it found it, so no
    directory is created, no file is created or appended to and no I/O
    is requested; and whatever sequence of logging calls is made, of any
    length and of any severities, the file system and the queue of
    pending requests stay as they are. *)
Theorem write_disabled_is_no_op (st : state) :
  truthy (writeToFile st) = false ->
  (forall entry, write env entry st = (Returned tt, st)) /\
  (forall calls,
     fs (call_sequence env calls st) = fs st /\
     pending (call_sequence env calls st) = pending st /\
     stderr (call_sequence env calls st) = stderr st).
Proof.
  intros Hoff. split.
  - intros entry. unfold write.
    cbv [mbind M_bind bind gets mret M_ret ret]. now rewrite Hoff.
  - intros calls. revert st Hoff.
    induction calls as [|[s args] calls IH]; intros st Hoff; [now cbn|].
    cbn [call_sequence].
    destruct (call_pending s args st) as (Hw & _ & Hfs & Herr & Hp).
    destruct Hp as [Hp | (_ & Hon & _)]; [|congruence].
    destruct (IH (snd (logging_function env s args st))) as (IH1 & IH2 & IH3).
    + now rewrite Hw.
    + rewrite IH1, IH2, IH3. auto.
Qed.

(** C2, as amended.  Every write stamps its line with the time first
    and the date second, [HH:MM:SS YYYY-MM-DD]: of the ISO-8601 instant
    only the [T] and the fraction with its [Z] are replaced, the hyphens
    and colons stay, and the reversal swaps the two fields. *)
Theorem write_stamps_time_then_date (entry : string) (st : state) :
  truthy (writeToFile st) = true ->
  dateString (now st) = time_of_day (now st) +:+ " " +:+ calendar_date (now st) /\
  write env entry st
  = (Returned tt,
     add_pending
       (Mkdirp (path_dirname (appLogFile env)) (appLogFile env)
          ("[" +:+ time_of_day (now st) +:+ " " +:+ calendar_date (now st) +:+ "] "
               +:+ entry +:+ CRLF))
       st).
Proof.
  intros Hon. split; [apply dateString_swapped|].
  now rewrite write_on.
Qed.

(** C1, as amended.  With debug mode inactive, every call of [debug]
    returns without console output and without file write.  [info] is
    not gated by debug mode: with debug mode inactive a call with
    arguments still prints its console line and, when [writeToFile] is
    set, issues its file write. *)
Theorem debug_mode_gates_debug_only :
  isDebug env = false ->
  (forall args st, printCliDebugMessage env args st = (Returned tt, st)) /\
  (forall l rest st,
     exists st',
       printCliInfoMessage env (l :: rest) st = (Returned tt, st') /\
       stdout st' = stdout st ++
         [[VString (console_line ["green"%string] (parseLogEntry env (l :: rest)))]] /\
       (truthy (writeToFile st) = true ->
        pending st' = pending st ++
          [write_request env (now st) (debug_body (parseLogEntry env (l :: rest)))])).
Proof.
  intros Hoff. split.
  - intros args st. unfold printCliDebugMessage. rewrite Hoff.
    now destruct (decide _).
  - intros l rest st. rewrite info_call. cbv zeta.
    destruct (truthy (writeToFile st)) eqn:Hw.
    + rewrite write_on by exact Hw. eexists. split; [reflexivity|].
      cbn. auto.
    + rewrite write_off by exact Hw. eexists. split; [reflexivity|].
      cbn. split; [reflexivity | discriminate].
Qed.

(** A request on a file system without faults ends, two turns of the
    event loop later, with its line at the end of its file. *)
Lemma request_lands file data (st : state) :
  pending st = [Mkdirp (path_dirname file) file data] ->
  fault (fs st) (path_dirname file) = None ->
  fault (fs st) file = None ->
  exists st',
    event_loop 2 st = (Returned tt, st') /\
    files (fs st') !! file = Some (default EmptyString (files (fs st) !! file) +:+ data) /\
    path_dirname file ∈ dirs (fs st') /\
    pending st' = [] /\ stderr st' = stderr st /\ stdout st' = stdout st.
Proof.
  intros Hq Hdir Hfile.
  unfold event_loop, event_loop_turn, run_task. run. rewrite Hq.
  cbn [fs]. unfold fs_mkdirp. rewrite Hdir.
  cbn [fs pending app]. unfold fs_appendFile. cbn [fault dirs files]. rewrite Hfile.
  destruct (decide _) as [_|Hno]; [|exfalso; apply Hno; set_solver].
  eexists. split; [reflexivity|]. cbn.
  rewrite lookup_insert_eq. repeat split; trivial. set_solver.
Qed.

(** C3, as amended.  A call [log("X", "a", "b")] with [writeToFile]
    set returns after requesting one line, which begins with the
    bracketed time stamp, contains the literal substring [[X] a b] (the
    label stands in its brackets, so [X a b] itself does not occur) and
    ends with CRLF; with no other I/O in flight and a file system
    without faults, that line ends up at the end of the log file. *)
Theorem log_X_a_b_file_line (st : state) :
  truthy (writeToFile st) = true ->
  let stamp := "[" +:+ time_of_day (now st) +:+ " " +:+ calendar_date (now st) +:+ "] " in
  let line := stamp +:+ "[" +:+ toUpper (path_basename (parent_filename env))
                    +:+ "] " +:+ "[X] a b" +:+ CRLF in
  exists st',
    printCliLogMessage env [VString "X"; VString "a"; VString "b"] st = (Returned tt, st') /\
    pending st' = pending st ++ [Mkdirp (path_dirname (appLogFile env)) (appLogFile env) line] /\
    includes line "[X] a b" = true /\
    prefix_of stamp line = true /\
    ends_with line CRLF = true /\
    (pending st = [] ->
     fault (fs st) (path_dirname (appLogFile env)) = None ->
     fault (fs st) (appLogFile env) = None ->
     exists st'',
       event_loop 2 st' = (Returned tt, st'') /\
       files (fs st'') !! appLogFile env
       = Some (default EmptyString (files (fs st) !! appLogFile env) +:+ line)).
Proof.
  intros Hon stamp line.
  rewrite log_call. cbv zeta. rewrite write_on by exact Hon.
  eexists. split; [reflexivity|].
  assert (Hline :
    "[" +:+ time_of_day (now st) +:+ " " +:+ calendar_date (now st) +:+ "] "
        +:+ plain_body (parseLogEntry env [VString "X"; VString "a"; VString "b"]) +:+ CRLF
    = line).
  { unfold line, stamp, plain_body. cbn. now rewrite !app_assoc_string. }
  cbn [pending add_pending add_stdout now]. unfold write_request.
  cbn [now]. rewrite Hline.
  split; [reflexivity|]. split; [|split; [|split]].
  - replace line
      with ((stamp +:+ "[" +:+ toUpper (path_basename (parent_filename env)) +:+ "] ")
              +:+ "[X] a b" +:+ CRLF)
      by (unfold line; now rewrite !app_assoc_string).
    apply includes_app.
  - apply prefix_of_app.
  - replace line
      with ((stamp +:+ "[" +:+ toUpper (path_basename (parent_filename env)) +:+ "] "
               +:+ "[X] a b") +:+ CRLF)
      by (unfold line; now rewrite !app_assoc_string).
    apply ends_with_app.
  - intros Hq Hdir Hfile.
    edestruct (request_lands (appLogFile env) line) as (st'' & Hrun & Hfiles & _);
      [| | | exists st''; split; [exact Hrun | exact Hfiles]].
    + cbn. now rewrite Hq.
    + exact Hdir.
    + exact Hfile.
Qed.

(** C5.  A logging call that issues a write returns normally, before
    any of the I/O happens, and what it returns is the same on every
    file system.  When the directory creation or the append later
    fails, the callback returns after one call of [console.error]:
    nothing reaches the standard output, the file system and the queue
    of requests are as they were (nothing is retried), and no callback
    ever throws. *)
Theorem write_failure_is_only_reported :
  (forall s args (st : state),
     pending (snd (logging_function env s args st)) <> pending st ->
     fst (logging_function env s args st) = Returned tt) /\
  (forall s args (st : state) f,
     fst (logging_function env s args (with_fs f st))
     = fst (logging_function env s args st)) /\
  (forall dir file data code (st : state),
     fs_mkdirp dir (fs st) = inl code ->
     run_task (Mkdirp dir file data) st
     = (Returned tt, add_stderr ("log", "fs.mkdirp", code)%string st)) /\
  (forall file data code (st : state),
     fs_appendFile file data (fs st) = inl code ->
     run_task (AppendFile file data) st
     = (Returned tt, add_stderr ("log", "fs.appendFile", code)%string st)) /\
  (forall t (st : state), fst (run_task t st) = Returned tt).
Proof.
  repeat split.
  - intros s args st Hnew.
    destruct (call_pending s args st) as (_ & _ & _ & _ & [Hp | (_ & _ & Hr & _)]);
      [contradiction | exact Hr].
  - intros s args st f. apply call_result_frame.
  - intros dir file data code st Hfail.
    unfold run_task. run. now rewrite Hfail.
  - intros file data code st Hfail.
    unfold run_task. run. now rewrite Hfail.
  - intros t st. unfold run_task. run.
    destruct t as [dir file data | file data].
    + now destruct (fs_mkdirp dir (fs st)).
    + now destruct (fs_appendFile file data (fs st)).
Qed.

(** C9.  Called with an options object whose [writeToFile] is truthy,
    the factory creates the log directory synchronously: when it
    returns the six functions, the directory exists and no request is
    left pending for it; when the creation fails, the factory throws the
    failure to its caller and returns nothing. *)
Theorem factory_creates_log_directory (o : heap_object) (st : state) :
  truthy (get_property o "writeToFile") = true ->
  match fault (fs st) (appLogDirectory env) with
  | None =>
      exists st',
        module_exports env (VObject o) st = (Returned (the_facade env), st') /\
        writeToFile st' = get_property o "writeToFile" /\
        appLogDirectory env ∈ dirs (fs st') /\
        files (fs st') = files (fs st) /\
        pending st' = pending st /\ stderr st' = stderr st
  | Some code =>
      exists st', module_exports env (VObject o) st = (Threw (FsError code), st')
  end.
Proof.
  intros Hon. unfold module_exports, mkdirpSync. run.
  cbn [truthy property writeToFile]. rewrite Hon.
  cbn [fs]. unfold fs_mkdirp.
  destruct (fault (fs st) (appLogDirectory env)) as [code|].
  - eexists. reflexivity.
  - eexists. split; [reflexivity|]. cbn. repeat split; trivial. set_solver.
Qed.

(** C10.  With debug mode active and [writeToFile] set, a call of
    [devtools] with arguments returns after requesting one line, the
    very request [log] issues for the same arguments: time stamp, then
    [[PREFIX] [LABEL] MESSAGE], with no severity tag; with no other I/O
    in flight and a file system without faults, the line ends up at the
    end of the log file.  The process type plays no part: in a renderer
    or not, the call does the same. *)
Theorem devtools_writes_like_log (l : value) (rest : list value) (st : state) :
  isDebug env = true ->
  truthy (writeToFile st) = true ->
  let p := parseLogEntry env (l :: rest) in
  let line :=
    "[" +:+ time_of_day (now st) +:+ " " +:+ calendar_date (now st) +:+ "] "
        +:+ ("[" +:+ prefix p +:+ "] [" +:+ percent_s (label p) +:+ "] " +:+ message p)
        +:+ CRLF in
  let request := Mkdirp (path_dirname (appLogFile env)) (appLogFile env) line in
  fst (printDevtoolsMessage env (l :: rest) st) = Returned tt /\
  pending (snd (printDevtoolsMessage env (l :: rest) st)) = pending st ++ [request] /\
  pending (snd (printCliLogMessage env (l :: rest) st)) = pending st ++ [request] /\
  (forall process_type,
     printDevtoolsMessage (in_process env process_type) (l :: rest) st
     = printDevtoolsMessage env (l :: rest) st) /\
  (pending st = [] ->
   fault (fs st) (path_dirname (appLogFile env)) = None ->
   fault (fs st) (appLogFile env) = None ->
   exists st',
     event_loop 2 (snd (printDevtoolsMessage env (l :: rest) st)) = (Returned tt, st') /\
     files (fs st') !! appLogFile env
     = Some (default EmptyString (files (fs st) !! appLogFile env) +:+ line)).
Proof.
  intros Hd Hon p line request.
  assert (Hsame : forall process_type,
             printDevtoolsMessage (in_process env process_type) (l :: rest) st
             = printDevtoolsMessage env (l :: rest) st) by reflexivity.
  rewrite devtools_call in * by exact Hd. rewrite log_call. cbv zeta in *.
  rewrite !write_on in * by exact Hon.
  repeat split; try solve [reflexivity | apply Hsame].
  intros Hq Hdir Hfile.
  edestruct (request_lands (appLogFile env) line) as (st' & Hrun & Hfiles & _);
    [| | | exists st'; split; [exact Hrun | exact Hfiles]].
  - cbn. now rewrite Hq.
  - exact Hdir.
  - exact Hfile.
Qed.

(** C8, as amended.  Each argument after the label that is a non-null
    value of type object is replaced by a line break followed by its
    dump by [util.inspect], uncoloured, of unlimited depth, with hidden
    fields and proxies shown; a function is not of type object and
    keeps its own conversion to text.  The message is the arguments
    after the label so replaced, joined with single spaces ([undefined]
    and [null] giving the empty text), and the empty string when there
    is none. *)
Theorem message_joins_expanded_arguments (args : list value) :
  message (parseLogEntry env args) = join " " (map message_text (tail args)) /\
  (forall o,
     expand_object (VObject o)
     = VString (CRLF +:+ util_inspect (VObject o) (mkInspectOptions false None true true))) /\
  (forall v, (forall o, v <> VObject o) -> expand_object v = v) /\
  (forall l, message (parseLogEntry env [l]) = EmptyString).
Proof.
  repeat split.
  - unfold parseLogEntry. cbn [message]. unfold array_join.
    rewrite map_map. f_equal. apply map_ext.
    intros v. now destruct v as [| |[]| | | |].
  - intros v Hv. destruct v; try reflexivity. now contradiction (Hv o).
Qed.

End Facts.

Section Styling.

Context {number heap_object : Type} `{rt : Runtime number heap_object}.
Variable env : environment number heap_object.

#[local] Abbreviation value := (Logger.value number heap_object).
#[local] Abbreviation state := (Logger.state number heap_object).

(** What a call leaves pending is the same however chalk renders. *)
Lemma pending_ignores_ansi paint s args (st : state) :
  pending (snd (logging_function (rt := with_ansi paint) env s args st))
  = pending (snd (logging_function env s args st)).
Proof.
  rewrite (call_summary (rt := with_ansi paint)), call_summary.
  destruct args as [|l rest]; [reflexivity|].
  destruct s; cbn [kind_of run_kind];
    try destruct (isDebug env);
    try destruct (strict_equals_string (process_type env) "renderer");
    cbn [run_kind]; try reflexivity;
    rewrite (pending_after_print (rt := with_ansi paint)), (pending_after_print env);
    reflexivity.
Qed.

(** C4, as amended.  Every request a logging call issues carries the
    line [[HH:MM:SS YYYY-MM-DD] BODY] and a CRLF, where BODY is
    [[PREFIX] [LABEL] MESSAGE] for [log], for [devtools] and for
    [debug] inside a renderer, [[PREFIX] [ERROR] [LABEL] MESSAGE] for
    [error] (the tag comes after the prefix), and
    [[DEBUG] [PREFIX] [LABEL] MESSAGE] for [debug] outside a renderer
    and for [info] (the format string of [warn] is that one too).  The
    line carries no colour styling: it is built from the unstyled
    prefix, label and message, and what is requested stays the same
    however chalk renders its styles. *)
Theorem file_line_format (s : severity) (args : list value) (st : state) :
  let p := parseLogEntry env args in
  let body :=
    match s with
    | Log | Devtools =>
        "[" +:+ prefix p +:+ "] [" +:+ percent_s (label p) +:+ "] " +:+ message p
    | Error =>
        "[" +:+ prefix p +:+ "] [ERROR] [" +:+ percent_s (label p) +:+ "] " +:+ message p
    | Debug =>
        if strict_equals_string (process_type env) "renderer"
        then "[" +:+ prefix p +:+ "] [" +:+ percent_s (label p) +:+ "] " +:+ message p
        else "[DEBUG] [" +:+ prefix p +:+ "] [" +:+ percent_s (label p) +:+ "] " +:+ message p
    | Info | Warn =>
        "[DEBUG] [" +:+ prefix p +:+ "] [" +:+ percent_s (label p) +:+ "] " +:+ message p
    end in
  (exists issued,
     pending (snd (logging_function env s args st)) = pending st ++ issued /\
     Forall
       (fun t =>
          t = Mkdirp (path_dirname (appLogFile env)) (appLogFile env)
                ("[" +:+ time_of_day (now st) +:+ " " +:+ calendar_date (now st) +:+ "] "
                     +:+ body +:+ CRLF))
       issued) /\
  (forall paint,
     pending (snd (logging_function (rt := with_ansi paint) env s args st))
     = pending (snd (logging_function env s args st))).
Proof.
  intros p body. split; [|intros paint; apply pending_ignores_ansi].
  destruct (call_pending env s args st) as (_ & _ & _ & _ & [Hp | (_ & _ & _ & Hp)]).
  - exists []. rewrite Hp, app_nil_r. split; [reflexivity | constructor].
  - eexists. split; [exact Hp|].
    constructor; [|constructor].
    unfold write_request, body, p. now destruct s.
Qed.

End Styling.
End LoggerFacts.

(* ===================================================================== *)
(** ** The logger on the concrete runtime *)
(* ===================================================================== *)

Module SampleRuns.
Import JsText Logger LoggerSpec LoggerFacts Sample.

#[local] Abbreviation value := (Logger.value number heap_object).

Example iso_of_noon : toISOString noon = "2024-03-05T14:07:09.123Z".
Proof. reflexivity. Qed.

Example stamp_of_noon : dateString noon = "14:07:09 2024-03-05".
Proof. reflexivity. Qed.

Example expanded_year :
  dateString (mkDate 12024 3 5 14 7 9 123) = "14:07:09 +012024-03-05".
Proof. reflexivity. Qed.

Example dot_before_line_end_is_kept :
  replace_Z_T_fraction false ("a." +:+ CRLF +:+ "b.cZ") = "a." +:+ CRLF +:+ "b ".
Proof. reflexivity. Qed.

Example warn_throws :
  printCliWarnMessage terminal [X; a] file_on
  = (Threw (TypeError "Cannot read property 'bold' of undefined"), file_on).
Proof. reflexivity. Qed.

(** C1, refuted as stated: with debug mode inactive, [info] prints a
    line and requests a write. *)
Lemma info_prints_without_debug_mode :
  isDebug terminal = false /\
  length (stdout (snd (printCliInfoMessage terminal [X; a] file_on))) = 1 /\
  pending (snd (printCliInfoMessage terminal [X; a] file_on))
  = [Mkdirp log_dir log_file ("[14:07:09 2024-03-05] [DEBUG] [MAIN.JS] [X] a" +:+ CRLF)].
Proof. repeat split. Qed.

Lemma debug_mode_gates_debug_only_witness :
  isDebug terminal = false /\
  printCliDebugMessage terminal [X; a] file_on = (Returned tt, file_on) /\
  exists st',
    printCliInfoMessage terminal [X; a] file_on = (Returned tt, st') /\
    length (stdout st') = 1.
Proof.
  split; [reflexivity|].
  destruct (debug_mode_gates_debug_only terminal eq_refl) as [Hdebug Hinfo].
  split; [apply Hdebug|].
  destruct (Hinfo X [a] file_on) as (st' & Hcall & Hout & _).
  exists st'. split; [exact Hcall|]. now rewrite Hout.
Defined.

(** C2, refuted as stated: the stamp of a write is not
    [DD MM YYYY HH:MM:SS]. *)
Lemma stamp_is_not_day_month_year :
  spec_dateString noon = "05 03 2024 14:07:09" /\
  pending (snd (write terminal "entry" file_on))
  = [Mkdirp log_dir log_file ("[14:07:09 2024-03-05] entry" +:+ CRLF)] /\
  pending (snd (write terminal "entry" file_on))
  <> [Mkdirp log_dir log_file ("[" +:+ spec_dateString noon +:+ "] entry" +:+ CRLF)].
Proof. repeat split. intros H. vm_compute in H. discriminate H. Qed.

Lemma write_stamps_time_then_date_witness :
  truthy (writeToFile file_on) = true /\
  write terminal "entry" file_on
  = (Returned tt,
     add_pending (Mkdirp log_dir log_file ("[14:07:09 2024-03-05] entry" +:+ CRLF)) file_on).
Proof.
  split; [reflexivity|].
  exact (proj2 (write_stamps_time_then_date terminal "entry" file_on eq_refl)).
Defined.

(** C3, refuted as stated: the line of [log("X", "a", "b")] does not
    contain [X a b]. *)
Lemma line_does_not_contain_X_a_b :
  pending (snd (printCliLogMessage terminal [X; a; b] file_on))
  = [Mkdirp log_dir log_file ("[14:07:09 2024-03-05] [MAIN.JS] [X] a b" +:+ CRLF)] /\
  includes ("[14:07:09 2024-03-05] [MAIN.JS] [X] a b" +:+ CRLF) "X a b" = false.
Proof. split; reflexivity. Qed.

Lemma log_X_a_b_file_line_witness :
  truthy (writeToFile file_on) = true /\
  exists st' st'',
    printCliLogMessage terminal [X; a; b] file_on = (Returned tt, st') /\
    event_loop 2 st' = (Returned tt, st'') /\
    files (fs st'') !! log_file
    = Some ("[14:07:09 2024-03-05] [MAIN.JS] [X] a b" +:+ CRLF).
Proof.
  split; [reflexivity|].
  destruct (log_X_a_b_file_line terminal file_on eq_refl)
    as (st' & Hcall & _ & _ & _ & _ & Hlands).
  destruct (Hlands eq_refl eq_refl eq_refl) as (st'' & Hloop & Hfile).
  exists st', st''. repeat split; [exact Hcall | exact Hloop | exact Hfile].
Defined.

(** C4, refuted as stated: the line of [error] carries its tag after
    the prefix, and its stamp is the time followed by the date. *)
Lemma error_line_is_not_as_specified :
  pending (snd (printCliErrorMessage terminal [X; a] file_on))
  = [Mkdirp log_dir log_file ("[14:07:09 2024-03-05] [MAIN.JS] [ERROR] [X] a" +:+ CRLF)] /\
  spec_file_line Error (spec_dateString noon) (parseLogEntry terminal [X; a])
  = "[05 03 2024 14:07:09] [ERROR] [MAIN.JS] [X] a"%string /\
  spec_file_line Error (dateString noon) (parseLogEntry terminal [X; a])
  = "[14:07:09 2024-03-05] [ERROR] [MAIN.JS] [X] a"%string /\
  "[14:07:09 2024-03-05] [MAIN.JS] [ERROR] [X] a"%string
  <> spec_file_line Error (spec_dateString noon) (parseLogEntry terminal [X; a]) /\
  "[14:07:09 2024-03-05] [MAIN.JS] [ERROR] [X] a"%string
  <> spec_file_line Error (dateString noon) (parseLogEntry terminal [X; a]).
Proof.
  repeat split; intros H; vm_compute in H; discriminate H.
Qed.

Lemma write_failure_is_only_reported_witness :
  pending (snd (logging_function terminal Log [X; a] (configured (VBoolean true) readonly_fs)))
  <> [] /\
  fst (logging_function terminal Log [X; a] (configured (VBoolean true) readonly_fs))
  = Returned tt /\
  fs_mkdirp log_dir readonly_fs = inl "EACCES"%string /\
  run_task (Mkdirp log_dir log_file "line") (configured (VBoolean true) readonly_fs)
  = (Returned tt,
     mkState (VBoolean true) noon [] [("log", "fs.mkdirp", "EACCES")%string] readonly_fs []) /\
  fs_appendFile log_file "line" full_fs = inl "ENOSPC"%string /\
  run_task (AppendFile log_file "line") (configured (VBoolean true) full_fs)
  = (Returned tt,
     mkState (VBoolean true) noon [] [("log", "fs.appendFile", "ENOSPC")%string] full_fs []).
Proof.
  destruct (write_failure_is_only_reported terminal)
    as (Hreturns & _ & Hmkdirp & Happend & _).
  assert (Hissued :
    pending (snd (logging_function terminal Log [X; a]
                    (configured (VBoolean true) readonly_fs))) <> [])
    by discriminate.
  split; [exact Hissued|]. split; [exact (Hreturns _ _ _ Hissued)|].
  split; [reflexivity|]. split.
  - exact (Hmkdirp log_dir log_file "line"%string "EACCES"%string
             (configured (VBoolean true) readonly_fs) eq_refl).
  - split; [reflexivity|].
    exact (Happend log_file "line"%string "ENOSPC"%string
             (configured (VBoolean true) full_fs) eq_refl).
Defined.

Lemma write_disabled_is_no_op_witness :
  truthy (writeToFile file_off) = false /\
  write terminal "entry" file_off = (Returned tt, file_off) /\
  fs (call_sequence terminal_debug
        [(Log, [X; a]); (Error, [X]); (Debug, [X; b]); (Info, [X]); (Warn, [X])] file_off)
  = healthy_fs.
Proof.
  split; [reflexivity|].
  destruct (write_disabled_is_no_op terminal file_off eq_refl) as [Hwrite _].
  destruct (write_disabled_is_no_op terminal_debug file_off eq_refl) as [_ Hcalls].
  split; [apply Hwrite | apply Hcalls].
Defined.

(** C8, refuted as stated: a function is not a primitive, and it is not
    dumped. *)
Lemma function_argument_is_not_dumped :
  message (parseLogEntry terminal [X; VFunction f; VObject options])
  = "function f() {} " +:+ CRLF +:+ "{ writeToFile: true }" /\
  join " " (map spec_message_text [VFunction f; VObject options])
  = CRLF +:+ "[Function] " +:+ CRLF +:+ "{ writeToFile: true }" /\
  message (parseLogEntry terminal [X; VFunction f; VObject options])
  <> join " " (map spec_message_text (tail [X; VFunction f; VObject options])).
Proof.
  repeat split. intros H. vm_compute in H. discriminate H.
Qed.

Lemma message_joins_expanded_arguments_witness :
  message (parseLogEntry terminal [X; a; VObject options; VNull; VNumber 12%Z])
  = "a " +:+ CRLF +:+ "{ writeToFile: true }  12" /\
  expand_object a = a.
Proof.
  destruct (message_joins_expanded_arguments terminal
              [X; a; VObject options; VNull; VNumber 12%Z]) as (Hmsg & _ & Hkeep & _).
  split; [exact Hmsg|].
  apply Hkeep. discriminate.
Defined.

Lemma factory_creates_log_directory_witness :
  truthy (get_property options "writeToFile") = true /\
  (exists st',
     module_exports terminal (VObject options) (loaded healthy_fs)
     = (Returned (the_facade terminal), st') /\
     log_dir ∈ dirs (fs st') /\ pending st' = []) /\
  (exists st',
     module_exports terminal (VObject options) (loaded readonly_fs)
     = (Threw (FsError "EACCES"), st')).
Proof.
  split; [reflexivity|]. split.
  - pose proof (factory_creates_log_directory terminal options (loaded healthy_fs) eq_refl)
      as Hreturns.
    destruct Hreturns as (st' & Hcall & _ & Hdir & _ & Hq & _).
    exists st'. repeat split; [exact Hcall | exact Hdir | exact Hq].
  - pose proof (factory_creates_log_directory terminal options (loaded readonly_fs) eq_refl)
      as Hthrows.
    exact Hthrows.
Defined.

Lemma devtools_writes_like_log_witness :
  isDebug renderer_debug = true /\
  truthy (writeToFile file_on) = true /\
  pending (snd (printDevtoolsMessage renderer_debug [X; a] file_on))
  = [Mkdirp log_dir log_file ("[14:07:09 2024-03-05] [MAIN.JS] [X] a" +:+ CRLF)] /\
  pending (snd (printCliLogMessage renderer_debug [X; a] file_on))
  = [Mkdirp log_dir log_file ("[14:07:09 2024-03-05] [MAIN.JS] [X] a" +:+ CRLF)] /\
  printDevtoolsMessage terminal_debug [X; a] file_on
  = printDevtoolsMessage renderer_debug [X; a] file_on /\
  exists st',
    event_loop 2 (snd (printDevtoolsMessage renderer_debug [X; a] file_on))
    = (Returned tt, st') /\
    files (fs st') !! log_file = Some ("[14:07:09 2024-03-05] [MAIN.JS] [X] a" +:+ CRLF).
Proof.
  split; [reflexivity|]. split; [reflexivity|].
  destruct (devtools_writes_like_log renderer_debug X [a] file_on eq_refl eq_refl)
    as (_ & Hdev & Hlog & Hany & Hlands).
  split; [exact Hdev|]. split; [exact Hlog|].
  split; [exact (Hany VUndefined)|].
  exact (Hlands eq_refl eq_refl eq_refl).
Defined.

End SampleRuns.

(* ===================================================================== *)
(** ** Further properties of the logger *)
(* ===================================================================== *)

Module LoggerExtras.
Import JsText JsTextFacts Logger LoggerSpec ExtraSpec LoggerFacts.

Section Extras.

Context {number heap_object : Type} `{rt : Runtime number heap_object}.
Variable env : environment number heap_object.

#[local] Abbreviation value := (Logger.value number heap_object).
#[local] Abbreviation state := (Logger.state number heap_object).

Ltac step := cbv [mbind mret M_bind M_ret bind ret gets modify throw
                  console_log console_error enqueue set_fs set_pending set_writeToFile].

Lemma length_append s t :
  String.length (s +:+ t) = String.length s + String.length t.
Proof.
  induction s as [|c s IH]; [reflexivity|].
  rewrite app_cons. cbn [String.length]. now rewrite IH.
Qed.

Lemma length_pad w : forall n, String.length (pad w n) = w.
Proof.
  induction w as [|w IH]; intros n; [reflexivity|].
  cbn [pad]. rewrite length_append, IH. cbn. lia.
Qed.

Lemma write_keeps_console entry (st : state) :
  stdout (snd (write env entry st)) = stdout st /\
  stderr (snd (write env entry st)) = stderr st /\
  fs (snd (write env entry st)) = fs st /\
  writeToFile (snd (write env entry st)) = writeToFile st /\
  now (snd (write env entry st)) = now st.
Proof.
  destruct (truthy (writeToFile st)) eqn:Hw.
  - now rewrite write_on.
  - now rewrite write_off.
Qed.

Lemma event_loop_idle n (st : state) :
  pending st = [] -> event_loop n st = (Returned tt, st).
Proof.
  intros Hq. induction n as [|n IH]; [reflexivity|].
  cbn [event_loop]. unfold event_loop_turn at 1. step.
  rewrite Hq. exact IH.
Qed.


Lemma module_exports_facade options (st st' : state) f :
  module_exports env options st = (Returned f, st') -> f = the_facade env.
Proof.
  unfold module_exports, mkdirpSync. step.
  cbn [writeToFile fs].
  destruct (truthy _).
  - destruct (fs_mkdirp _ _); intros H; now inversion H.
  - intros H. now inversion H.
Qed.

(** X1.  Whatever the configuration, a call of [warn] with arguments
    throws a TypeError before any effect: the style [chalk['orange']]
    it reads is undefined. *)
Theorem warn_always_throws (args : list value) (st : state) :
  args <> [] ->
  logging_function env Warn args st
  = (Threw (TypeError "Cannot read property 'bold' of undefined"), st).
Proof.
  intros Hargs. destruct args as [|l rest]; [contradiction|].
  apply warn_call.
Qed.

(** X2.  [error] is not gated by debug mode and prints through
    [console.log]: a call with arguments returns after adding one line,
    in red, to the standard output, and nothing goes to the error
    channel. *)
Theorem error_prints_on_stdout (l : value) (rest : list value) (st : state) :
  exists st',
    printCliErrorMessage env (l :: rest) st = (Returned tt, st') /\
    stdout st' = stdout st ++
      [[VString (console_line ["red"%string] (parseLogEntry env (l :: rest)))]] /\
    stderr st' = stderr st.
Proof.
  rewrite error_call. cbv zeta.
  destruct (truthy (writeToFile st)) eqn:Hw.
  - rewrite write_on by exact Hw. eexists. now split.
  - rewrite write_off by exact Hw. eexists. now split.
Qed.

(** X3.  In a renderer process, [debug] is [devtools]: on every
    argument list and in every state the two calls do the same. *)
Theorem debug_in_renderer_is_devtools (args : list value) (st : state) :
  strict_equals_string (process_type env) "renderer" = true ->
  printCliDebugMessage env args st = printDevtoolsMessage env args st.
Proof.
  intros Hr. destruct args as [|l rest].
  - change (logging_function env Debug [] st = logging_function env Devtools [] st).
    now rewrite !call_empty.
  - destruct (isDebug env) eqn:Hd.
    + now apply debug_call_renderer.
    + now rewrite debug_quiet, devtools_quiet.
Qed.

(** X4.  The time stamp has the resolution of a second: the
    milliseconds of the instant never show in it. *)
Theorem stamp_ignores_milliseconds (d : Date) (ms : nat) :
  dateString (at_millisecond d ms) = dateString d.
Proof. now rewrite !dateString_swapped. Qed.

(** X5.  The time stamp has a fixed width: 19 characters for the years
    0 to 9999, and 22 for the others, which print with a sign and six
    digits. *)
Theorem stamp_width (d : Date) :
  String.length (dateString d)
  = if (0 <=? year d)%Z && (year d <=? 9999)%Z then 19 else 22.
Proof.
  rewrite dateString_swapped. unfold time_of_day, calendar_date, year_string.
  destruct (_ && _); [|destruct (year d <? 0)%Z];
    rewrite ?length_append, ?length_pad; reflexivity.
Qed.

Lemma factory_without_file_writing_aux (options : value) (st : state) :
  truthy (requested_flag options) = false ->
  module_exports env options st
  = (Returned (the_facade env), with_flag (requested_flag options) st).
Proof.
  intros Hoff. unfold module_exports. step. cbn [writeToFile].
  fold (requested_flag options). now rewrite Hoff.
Qed.

(** X6.  When [options && options.writeToFile] is falsy the factory
    only records that value and returns the six functions: it reads and
    changes nothing of the file system, so it cannot throw, even where
    the log directory could not be created. *)
Theorem factory_without_file_writing (options : value) (st : state) :
  truthy (requested_flag options) = false ->
  module_exports env options st
  = (Returned (the_facade env), with_flag (requested_flag options) st).
Proof.
  exact (factory_without_file_writing_aux options st).
Qed.

(** X7.  An [options] argument that is not an object (missing, [null],
    a boolean, a number or a string) never switches file writing on:
    the factory leaves a falsy [writeToFile] and does not touch the
    file system. *)
Theorem primitive_options_disable_writing (options : value) (st : state) :
  (forall o, options <> VObject o) ->
  (forall o, options <> VFunction o) ->
  exists st',
    module_exports env options st = (Returned (the_facade env), st') /\
    truthy (writeToFile st') = false /\
    fs st' = fs st /\ pending st' = pending st.
Proof.
  intros Hobj Hfun.
  assert (Hoff : truthy (requested_flag options) = false).
  { unfold requested_flag.
    destruct options as [| |bo|n|t|o|o]; try reflexivity.
    - now destruct bo.
    - cbn [truthy property]. destruct (number_is_truthy n) eqn:E; [reflexivity | exact E].
    - cbn [truthy property]. destruct (negb (String.eqb t "")) eqn:E; [reflexivity | exact E].
    - now contradiction (Hfun o).
    - now contradiction (Hobj o). }
  rewrite factory_without_file_writing_aux by exact Hoff.
  eexists. split; [reflexivity|]. cbn. auto.
Qed.

(** X8.  [writeToFile] belongs to the module, not to the returned
    object: once the factory has run again with a falsy option, the
    functions of an object it returned earlier request no write any
    more, whatever option that earlier call was given. *)
Theorem later_factory_call_rules_earlier_facades
    (first_options later_options : value) (st0 st : state)
    (earlier : facade number heap_object) (s : severity) (args : list value) :
  module_exports env first_options st0 = (Returned earlier, st) ->
  truthy (requested_flag later_options) = false ->
  let st' := snd (module_exports env later_options st) in
  facade_function earlier s args st' = logging_function env s args st' /\
  pending (snd (facade_function earlier s args st')) = pending st /\
  fs (snd (facade_function earlier s args st')) = fs st.
Proof.
  intros Hfirst Hoff st'.
  apply module_exports_facade in Hfirst. subst earlier.
  assert (Hsame : facade_function (the_facade env) s args st'
                  = logging_function env s args st') by now destruct s.
  rewrite Hsame. split; [reflexivity|].
  unfold st'. rewrite factory_without_file_writing_aux by exact Hoff. cbn [snd].
  destruct (call_pending env s args (with_flag (requested_flag later_options) st))
    as (_ & _ & Hfs & _ & [Hp | (_ & Hon & _)]).
  - now rewrite Hp, Hfs.
  - cbn [writeToFile with_flag] in Hon. congruence.
Qed.

(** X9.  What a logging call prints and what it returns do not depend
    on [writeToFile]: the console shows the same with file writing on
    or off. *)
Theorem console_ignores_writeToFile (s : severity) (args : list value)
    (st : state) (v : value) :
  fst (logging_function env s args (with_flag v st))
  = fst (logging_function env s args st) /\
  stdout (snd (logging_function env s args (with_flag v st)))
  = stdout (snd (logging_function env s args st)) /\
  stderr (snd (logging_function env s args (with_flag v st)))
  = stderr (snd (logging_function env s args st)).
Proof.
  rewrite !call_summary.
  destruct (kind_of env s args) as [|e|line body]; cbn [run_kind fst snd];
    try (repeat split; reflexivity).
  rewrite !write_returns.
  destruct (write_keeps_console body (add_stdout line (with_flag v st))) as (-> & -> & _).
  destruct (write_keeps_console body (add_stdout line st)) as (-> & -> & _).
  repeat split; reflexivity.
Qed.


(** X11.  In the log file [info] and [debug] cannot be told apart:
    with debug mode active and outside a renderer, the two calls
    request the same line for the same arguments. *)
Theorem info_and_debug_lines_coincide (args : list value) (st : state) :
  isDebug env = true ->
  strict_equals_string (process_type env) "renderer" = false ->
  pending (snd (printCliInfoMessage env args st))
  = pending (snd (printCliDebugMessage env args st)).
Proof.
  intros Hd Hr.
  change (pending (snd (logging_function env Info args st))
          = pending (snd (logging_function env Debug args st))).
  rewrite !call_summary.
  destruct args as [|l rest]; [reflexivity|].
  cbn [kind_of]. rewrite Hd, Hr. cbn [run_kind].
  now rewrite !pending_after_print.
Qed.





(** One turn of the event loop on a queue that is not empty. *)
Lemma event_loop_next n t rest (st : state) :
  pending st = t :: rest ->
  event_loop (S n) st
  = match run_task t (mkState (writeToFile st) (now st) (stdout st) (stderr st) (fs st) rest) with
    | (Returned _, st') => event_loop n st'
    | (Threw e, st') => (Threw e, st')
    end.
Proof.
  intros Hq. cbn [event_loop]. unfold event_loop_turn. step. now rewrite Hq.
Qed.

(** X13.  A line whose directory cannot be created is lost: however
    long the event loop runs afterwards, the failure is reported once
    on the error channel, the append is never requested and the file
    system stays as it was. *)
Theorem line_is_lost_when_mkdirp_fails (entry code : string) (st : state) (turns : nat) :
  truthy (writeToFile st) = true ->
  pending st = [] ->
  fault (fs st) (path_dirname (appLogFile env)) = Some code ->
  event_loop (S turns) (snd (write env entry st))
  = (Returned tt, add_stderr ("log", "fs.mkdirp", code)%string st).
Proof.
  intros Hon Hq Hdir.
  rewrite write_on by exact Hon. cbn [snd event_loop].
  unfold event_loop_turn at 1, run_task. step.
  cbn [pending add_pending fs]. rewrite Hq. cbn [app write_request].
  unfold fs_mkdirp. cbn [fs add_pending]. rewrite Hdir.
  rewrite event_loop_idle by reflexivity.
  unfold add_stderr. cbn. now rewrite Hq.
Qed.

(** X14.  A line whose append fails is lost as well: the directory is
    created, the failure is reported once on the error channel, no
    file is created or changed, and nothing is left pending. *)
Theorem line_is_lost_when_append_fails (entry code : string) (st : state) (turns : nat) :
  truthy (writeToFile st) = true ->
  pending st = [] ->
  fault (fs st) (path_dirname (appLogFile env)) = None ->
  fault (fs st) (appLogFile env) = Some code ->
  exists st',
    event_loop (S (S turns)) (snd (write env entry st)) = (Returned tt, st') /\
    stderr st' = stderr st ++ [("log", "fs.appendFile", code)%string] /\
    files (fs st') = files (fs st) /\
    path_dirname (appLogFile env) ∈ dirs (fs st') /\
    pending st' = [] /\ stdout st' = stdout st.
Proof.
  intros Hon Hq Hdir Hfile.
  rewrite write_on by exact Hon. cbn [snd].
  rewrite (event_loop_next (S turns) (write_request env (now st) entry) [])
    by (cbn; now rewrite Hq).
  unfold run_task, write_request. step. cbn [fs add_pending].
  unfold fs_mkdirp. rewrite Hdir.
  cbn [fs pending writeToFile now stdout stderr app add_pending].
  erewrite (event_loop_next turns) by reflexivity.
  unfold run_task. step. cbn [fs].
  unfold fs_appendFile. cbn [fault]. rewrite Hfile.
  rewrite event_loop_idle by reflexivity.
  eexists. split; [reflexivity|]. cbn. repeat split; trivial. set_solver.
Qed.

End Extras.
End LoggerExtras.

(* ===================================================================== *)
(** ** The further properties on the concrete runtime *)
(* ===================================================================== *)

Module ExtraRuns.
Import JsText Logger LoggerSpec ExtraSpec LoggerFacts LoggerExtras Sample.

#[local] Abbreviation value := (Logger.value number heap_object).

Lemma warn_always_throws_witness :
  [X; a] <> [] /\
  logging_function terminal_debug Warn [X; a] file_on
  = (Threw (TypeError "Cannot read property 'bold' of undefined"), file_on).
Proof.
  assert (Hargs : [X; a] <> []) by discriminate.
  split; [exact Hargs|].
  exact (warn_always_throws terminal_debug [X; a] file_on Hargs).
Defined.

Lemma debug_in_renderer_is_devtools_witness :
  strict_equals_string (process_type renderer_debug) "renderer" = true /\
  printCliDebugMessage renderer_debug [X; a] file_on
  = printDevtoolsMessage renderer_debug [X; a] file_on /\
  pending (snd (printCliDebugMessage renderer_debug [X; a] file_on))
  = [Mkdirp log_dir log_file ("[14:07:09 2024-03-05] [MAIN.JS] [X] a" +:+ CRLF)].
Proof.
  split; [reflexivity|]. split; [|reflexivity].
  exact (debug_in_renderer_is_devtools renderer_debug [X; a] file_on eq_refl).
Defined.

Lemma factory_without_file_writing_witness :
  truthy (requested_flag (VUndefined : value)) = false /\
  module_exports terminal VUndefined (loaded readonly_fs)
  = (Returned (the_facade terminal), with_flag VUndefined (loaded readonly_fs)).
Proof.
  split; [reflexivity|].
  exact (factory_without_file_writing terminal VUndefined (loaded readonly_fs) eq_refl).
Defined.

Lemma primitive_options_disable_writing_witness :
  exists st',
    module_exports terminal (VString "writeToFile") (loaded healthy_fs)
    = (Returned (the_facade terminal), st') /\
    truthy (writeToFile st') = false /\
    fs st' = healthy_fs /\ pending st' = [].
Proof.
  apply (primitive_options_disable_writing terminal (VString "writeToFile")
           (loaded healthy_fs)); discriminate.
Defined.

Lemma later_factory_call_rules_earlier_facades_witness :
  module_exports terminal (VObject options) (loaded healthy_fs)
  = (Returned (the_facade terminal),
     snd (module_exports terminal (VObject options) (loaded healthy_fs))) /\
  truthy (writeToFile (snd (module_exports terminal (VObject options) (loaded healthy_fs))))
  = true /\
  truthy (requested_flag (VUndefined : value)) = false /\
  pending
    (snd (facade_function (the_facade terminal) Log [X; a]
            (snd (module_exports terminal VUndefined
                    (snd (module_exports terminal (VObject options) (loaded healthy_fs)))))))
  = [].
Proof.
  assert (Hfirst :
    module_exports terminal (VObject options) (loaded healthy_fs)
    = (Returned (the_facade terminal),
       snd (module_exports terminal (VObject options) (loaded healthy_fs))))
    by reflexivity.
  split; [exact Hfirst|]. split; [reflexivity|]. split; [reflexivity|].
  pose proof (later_factory_call_rules_earlier_facades terminal
                (VObject options) VUndefined (loaded healthy_fs) _ _ Log [X; a]
                Hfirst eq_refl) as (_ & Hpending & _).
  exact Hpending.
Defined.

Lemma info_and_debug_lines_coincide_witness :
  isDebug terminal_debug = true /\
  strict_equals_string (process_type terminal_debug) "renderer" = false /\
  pending (snd (printCliInfoMessage terminal_debug [X; a] file_on))
  = pending (snd (printCliDebugMessage terminal_debug [X; a] file_on)) /\
  pending (snd (printCliDebugMessage terminal_debug [X; a] file_on))
  = [Mkdirp log_dir log_file ("[14:07:09 2024-03-05] [DEBUG] [MAIN.JS] [X] a" +:+ CRLF)].
Proof.
  split; [reflexivity|]. split; [reflexivity|]. split; [|reflexivity].
  exact (info_and_debug_lines_coincide terminal_debug [X; a] file_on eq_refl eq_refl).
Defined.


Lemma line_is_lost_when_mkdirp_fails_witness :
  fault readonly_fs (path_dirname (appLogFile terminal)) = Some "EACCES"%string /\
  event_loop 3 (snd (write terminal "entry" (configured (VBoolean true) readonly_fs)))
  = (Returned tt,
     mkState (VBoolean true) noon [] [("log", "fs.mkdirp", "EACCES")%string] readonly_fs []).
Proof.
  split; [reflexivity|].
  exact (line_is_lost_when_mkdirp_fails terminal "entry" "EACCES"
           (configured (VBoolean true) readonly_fs) 2 eq_refl eq_refl eq_refl).
Defined.

Lemma line_is_lost_when_append_fails_witness :
  fault full_fs (appLogFile terminal) = Some "ENOSPC"%string /\
  exists st',
    event_loop 2 (snd (write terminal "entry" (configured (VBoolean true) full_fs)))
    = (Returned tt, st') /\
    stderr st' = [("log", "fs.appendFile", "ENOSPC")%string] /\
    files (fs st') = ∅ /\ log_dir ∈ dirs (fs st') /\ pending st' = [].
Proof.
  split; [reflexivity|].
  pose proof (line_is_lost_when_append_fails terminal "entry" "ENOSPC"
                (configured (VBoolean true) full_fs) 0 eq_refl eq_refl eq_refl eq_refl)
    as (st' & Hrun & Herr & Hfiles & Hdir & Hq & _).
  exists st'. repeat split; assumption.
Defined.

End ExtraRuns.
